(** * fastnumbers timing notebooks: the pure-Python reference functions

    The timing notebooks (TIMING_27, TIMING_36 and the one for Python
    3.5) define, for every [fastnumbers] entry point they time, two
    pure-Python stand-ins: one built on a regular expression ([*_re])
    and one built on [try]/[except] ([*_try]).  The code cells of the
    three notebooks are identical.

    This development embeds those sixteen functions together with the
    parts of the Python runtime they call ([int], [float],
    [pattern.match], [type], [==], [float.is_integer]) and states the
    properties of the specification over them.  It also embeds the
    [Table] and [Timer] classes that time the functions and print the
    results; what a run of [timeit] measures and the floating-point
    arithmetic on the measurements are parameters there.

    Conventions of the embedding
    - a Python [str] is a [string]; every character is a code point
      below 256, so [\d] is an ASCII digit;
    - a Python [int] is a [Z] (Python 3: there is no separate [long]);
    - a Python [float] is an IEEE-754 binary64 value, [pyfloat];
      conversions from decimal text and from [int] round to nearest,
      ties to even, as CPython does;
    - a call either returns or raises: [res A];
    - [us] says whether the interpreter accepts PEP 515 underscores in
      the literals given to [int] and [float] (Python >= 3.6);
    - the inputs are the kinds of value of the timing table ([str],
      [int], [float]) and, beside them, [None], lists, [bytes] and the
      instances of any other class, each given by what [int], [float]
      and [==] make of it. *)

From Stdlib Require Import ZArith List Bool Lia.
From Stdlib Require Import Strings.Ascii Strings.String.
Import ListNotations.

Local Open Scope string_scope.
Local Open Scope Z_scope.

(** ** Exceptions and results *)

(** The exceptions the code can meet.  [ValueError] and [TypeError] are
    the two classes the [except] clauses of the notebooks name; an
    exception of a subclass is caught by the same clauses and is not
    told apart here.  [OtherError name] is an exception of any other
    class, such as the [NameError] or [ImportError] of a timed
    statement or what a method of the caller's object raises. *)
Inductive exn : Type :=
| ValueError
| TypeError
| OverflowError
| ZeroDivisionError
| OtherError (name : string).

Definition exn_eqb (a b : exn) : bool :=
  match a, b with
  | ValueError, ValueError => true
  | TypeError, TypeError => true
  | OverflowError, OverflowError => true
  | ZeroDivisionError, ZeroDivisionError => true
  | OtherError n, OtherError m => String.eqb n m
  | _, _ => false
  end.

Inductive res (A : Type) : Type :=
| Ret (a : A)
| Raise (e : exn).

Arguments Ret {A} a.
Arguments Raise {A} e.

Definition bind {A B : Type} (r : res A) (k : A -> res B) : res B :=
  match r with
  | Ret a => k a
  | Raise e => Raise e
  end.

Notation "x <- r ;; k" := (bind r (fun x => k))
  (at level 61, r at next level, right associativity).

(** [try: body except e: handler] *)
Definition try_except {A : Type} (body : res A) (e : exn) (handler : res A)
  : res A :=
  match body with
  | Ret a => Ret a
  | Raise e' => if exn_eqb e' e then handler else Raise e'
  end.

(** [try: body except e: handler else: k]; exceptions raised by the
    [else] suite are not caught. *)
Definition try_except_else {A B : Type} (body : res A) (e : exn)
  (handler : res B) (k : A -> res B) : res B :=
  match body with
  | Ret a => k a
  | Raise e' => if exn_eqb e' e then handler else Raise e'
  end.

(** ** Characters *)

Definition code (c : ascii) : Z := Z.of_nat (nat_of_ascii c).

Definition is_digit (c : ascii) : bool := (48 <=? code c) && (code c <=? 57).

Definition digit_val (c : ascii) : Z := code c - 48.

Definition is_char (a c : ascii) : bool := Ascii.eqb a c.

Definition is_sign (c : ascii) : bool := is_char "+" c || is_char "-" c.

Definition is_e (c : ascii) : bool := is_char "e" c || is_char "E" c.

(** The blanks [int] and [float] skip at both ends of a [str], among
    the code points below 256: TAB LF VT FF CR, SPACE, NEL and NBSP.
    They are fewer than the characters [str.strip] removes: see
    [is_whitespace]. *)
Definition is_space (c : ascii) : bool :=
  ((9 <=? code c) && (code c <=? 13))
  || (code c =? 32) || (code c =? 133) || (code c =? 160).

(** The separators FS GS RS US, U+001C to U+001F. *)
Definition is_separator (c : ascii) : bool :=
  (28 <=? code c) && (code c <=? 31).

(** [c.isspace()], the characters [str.strip()] removes: the blanks of
    [int] and [float] and the four separators. *)
Definition is_whitespace (c : ascii) : bool :=
  is_space c || is_separator c.

(** A code point below 128. *)
Definition is_ascii (c : ascii) : bool := code c <? 128.

Definition newline : ascii := ascii_of_nat 10.

(** ASCII lower-casing, as used for [inf], [infinity] and [nan]. *)
Definition lower (c : ascii) : ascii :=
  if (65 <=? code c) && (code c <=? 90)
  then ascii_of_nat (nat_of_ascii c + 32) else c.

(** ** Regular expressions

    The fragment of [re] the notebooks use: character classes, optional
    and repeated classes, concatenation, an optional group and [$].
    [matchk r s k] is [re]'s backtracking search: it tries the
    alternatives of [r] at the head of [s] greedily first and succeeds
    when some alternative lets the continuation [k] accept the rest. *)

Inductive regex : Type :=
| Cls (p : ascii -> bool)      (* [...] or \d, \. *)
| OptCls (p : ascii -> bool)   (* c? *)
| Star (p : ascii -> bool)     (* c* *)
| Plus (p : ascii -> bool)     (* c+ *)
| Opt (r : regex)              (* (?:r)? *)
| Cat (r1 r2 : regex)
| Dollar.                      (* $ *)

Fixpoint star_k (p : ascii -> bool) (s : string) (k : string -> bool) : bool :=
  match s with
  | String c t => (p c && star_k p t k) || k s
  | EmptyString => k s
  end.

(** [$] holds at the end of the subject and just before a newline that
    is its last character. *)
Definition at_dollar (s : string) : bool :=
  match s with
  | EmptyString => true
  | String c EmptyString => is_char newline c
  | _ => false
  end.

Fixpoint matchk (r : regex) (s : string) (k : string -> bool) : bool :=
  match r with
  | Cls p =>
      match s with
      | String c t => p c && k t
      | EmptyString => false
      end
  | OptCls p =>
      match s with
      | String c t => (p c && k t) || k s
      | EmptyString => k s
      end
  | Star p => star_k p s k
  | Plus p =>
      match s with
      | String c t => p c && star_k p t k
      | EmptyString => false
      end
  | Opt r1 => matchk r1 s k || k s
  | Cat r1 r2 => matchk r1 s (fun t => matchk r2 t k)
  | Dollar => at_dollar s && k s
  end.

(** [pattern.match(s)] as a truth value: anchored at the start, free at
    the end. *)
Definition pattern_match (r : regex) (s : string) : bool :=
  matchk r s (fun _ => true).

(** [[-+]?\d+$] *)
Definition int_pattern : regex :=
  Cat (OptCls is_sign) (Cat (Plus is_digit) Dollar).

(** [[-+]\d+$], the integer pattern of [forceint_re] *)
Definition forceint_int_pattern : regex :=
  Cat (Cls is_sign) (Cat (Plus is_digit) Dollar).

(** [(?:[eE][-+]?\d+)?] *)
Definition exponent_group : regex :=
  Opt (Cat (Cls is_e) (Cat (OptCls is_sign) (Plus is_digit))).

(** [[-+]?\d*\.?\d+(?:[eE][-+]?\d+)?$] *)
Definition float_pattern : regex :=
  Cat (OptCls is_sign)
    (Cat (Star is_digit)
       (Cat (OptCls (is_char "."))
          (Cat (Plus is_digit) (Cat exponent_group Dollar)))).

(** ** Floats

    A Python [float] is an IEEE-754 binary64 value.  [FFinite neg m e]
    is [(-1)^neg * m * 2^e] in canonical form: [2^52 <= m < 2^53] with
    [-1074 <= e <= 971], or a subnormal or zero [0 <= m < 2^52] with
    [e = -1074]. *)

Inductive pyfloat : Type :=
| FFinite (neg : bool) (m : Z) (e : Z)
| FInf (neg : bool)
| FNaN (neg : bool).

(** Quotient [num / den] rounded to the nearest integer, ties to even. *)
Definition round_half_even (num den : Z) : Z :=
  let q := num / den in
  let r := num mod den in
  match 2 * r ?= den with
  | Lt => q
  | Gt => q + 1
  | Eq => if Z.even q then q else q + 1
  end.

(** [q * 2^l <= p], for [l] of either sign. *)
Definition scaled_le (q l p : Z) : bool :=
  if 0 <=? l then q * 2 ^ l <=? p else q <=? p * 2 ^ (- l).

(** The double nearest to [p / q] for [0 < p] and [0 < q], ties to
    even; a magnitude of [2^1024] or more after rounding is infinite. *)
Definition round_ratio (neg : bool) (p q : Z) : pyfloat :=
  let l := Z.log2 p - Z.log2 q in
  let fl := if scaled_le q l p then l else l - 1 in
  let e := Z.max (fl - 52) (-1074) in
  let m := if 0 <=? e then round_half_even p (q * 2 ^ e)
           else round_half_even (p * 2 ^ (- e)) q in
  let '(m', e') := if m =? 2 ^ 53 then (2 ^ 52, e + 1) else (m, e) in
  if 971 <? e' then FInf neg else FFinite neg m' e'.

Definition fzero (neg : bool) : pyfloat := FFinite neg 0 (-1074).

(** [d * 10^ex] as a double. *)
Definition float_of_decimal (neg : bool) (d ex : Z) : pyfloat :=
  if d =? 0 then fzero neg
  else if 0 <=? ex then round_ratio neg (d * 10 ^ ex) 1
  else round_ratio neg d (10 ^ (- ex)).

(** [float(z)] for an [int]: the nearest double, or [OverflowError]
    ("int too large to convert to float"). *)
Definition float_of_int (z : Z) : res pyfloat :=
  if z =? 0 then Ret (fzero false)
  else match round_ratio (z <? 0) (Z.abs z) 1 with
       | FInf _ => Raise OverflowError
       | f => Ret f
       end.

(** [int(f)] for a [float]: truncation toward zero; infinities raise
    [OverflowError] and NaN raises [ValueError]. *)
Definition int_of_float (f : pyfloat) : res Z :=
  match f with
  | FFinite neg m e =>
      let a := if 0 <=? e then m * 2 ^ e else m / 2 ^ (- e) in
      Ret (if neg then - a else a)
  | FInf _ => Raise OverflowError
  | FNaN _ => Raise ValueError
  end.

(** [f.is_integer()] *)
Definition is_integer (f : pyfloat) : bool :=
  match f with
  | FFinite _ m e => if 0 <=? e then true else m mod 2 ^ (- e) =? 0
  | _ => false
  end.

(** [z == f] between an [int] and a [float]: Python compares the exact
    values. *)
Definition int_eq_float (z : Z) (f : pyfloat) : bool :=
  match f with
  | FFinite neg m e =>
      let sm := if neg then - m else m in
      if 0 <=? e then z =? sm * 2 ^ e else z * 2 ^ (- e) =? sm
  | _ => false
  end.

(** ** Numeric literals accepted by [int] and [float] *)

Fixpoint all_ascii (s : string) : bool :=
  match s with
  | String c t => is_ascii c && all_ascii t
  | EmptyString => true
  end.

(** What [int] and [float] leave of a string once they have skipped the
    blanks at its two ends.  This is not [str.strip()], which removes
    the separators as well: see [str_strip]. *)
Fixpoint lstrip_blanks (s : string) : string :=
  match s with
  | String c t => if is_space c then lstrip_blanks t else s
  | EmptyString => EmptyString
  end.

Fixpoint rstrip_blanks (s : string) : string :=
  match s with
  | String c t =>
      match rstrip_blanks t with
      | EmptyString => if is_space c then EmptyString else String c EmptyString
      | t' => String c t'
      end
  | EmptyString => EmptyString
  end.

Definition strip_blanks (s : string) : string :=
  rstrip_blanks (lstrip_blanks s).

(** [s.strip()]: the string without the whitespace at its two ends. *)
Fixpoint str_lstrip (s : string) : string :=
  match s with
  | String c t => if is_whitespace c then str_lstrip t else s
  | EmptyString => EmptyString
  end.

Fixpoint str_rstrip (s : string) : string :=
  match s with
  | String c t =>
      match str_rstrip t with
      | EmptyString =>
          if is_whitespace c then EmptyString else String c EmptyString
      | t' => String c t'
      end
  | EmptyString => EmptyString
  end.

Definition str_strip (s : string) : string := str_rstrip (str_lstrip s).

(** An optional leading sign: [(negative, rest)]. *)
Definition take_sign (s : string) : bool * string :=
  match s with
  | String c t =>
      if is_char "-" c then (true, t)
      else if is_char "+" c then (false, t)
      else (false, s)
  | EmptyString => (false, s)
  end.

(** The longest prefix of characters in [p], and the rest. *)
Fixpoint span (p : ascii -> bool) (s : string) : string * string :=
  match s with
  | String c t =>
      if p c then let '(a, b) := span p t in (String c a, b)
      else (EmptyString, s)
  | EmptyString => (EmptyString, EmptyString)
  end.

(** The value of a string of decimal digits, most significant first. *)
Fixpoint digits_value (acc : Z) (s : string) : Z :=
  match s with
  | String c t => digits_value (acc * 10 + digit_val c) t
  | EmptyString => acc
  end.

(** The digit scan of [int(s, 10)]: one or more digits; with [us], single
    underscores between digits.  [prev] tells whether the previous
    character was a digit. *)
Fixpoint int_digits (us : bool) (acc : Z) (prev : bool) (s : string)
  : option Z :=
  match s with
  | String c t =>
      if is_digit c then int_digits us (acc * 10 + digit_val c) true t
      else if us && is_char "_" c && prev then int_digits us acc false t
      else None
  | EmptyString => if prev then Some acc else None
  end.

(** [int(s)] for a [str] in base 10. *)
Definition int_of_string (us : bool) (s : string) : option Z :=
  let '(neg, r) := take_sign (strip_blanks s) in
  match int_digits us 0 false r with
  | Some z => Some (if neg then - z else z)
  | None => None
  end.

(** Removal of PEP 515 underscores before a float is parsed: each
    underscore must stand between two digits.  [prev] is the previous
    character. *)
Fixpoint drop_underscores (prev : option ascii) (s : string) : option string :=
  match s with
  | String c t =>
      if is_char "_" c then
        match prev with
        | Some d => if is_digit d then drop_underscores (Some c) t else None
        | None => None
        end
      else
        match prev with
        | Some d =>
            if is_char "_" d && negb (is_digit c) then None
            else option_map (String c) (drop_underscores (Some c) t)
        | None => option_map (String c) (drop_underscores (Some c) t)
        end
  | EmptyString =>
      match prev with
      | Some d => if is_char "_" d then None else Some EmptyString
      | None => Some EmptyString
      end
  end.

Fixpoint lower_string (s : string) : string :=
  match s with
  | String c t => String (lower c) (lower_string t)
  | EmptyString => EmptyString
  end.

(** The exponent part after the mantissa: nothing, or [e]/[E], an
    optional sign and one or more digits up to the end. *)
Definition exponent_of (s : string) : option Z :=
  match s with
  | EmptyString => Some 0
  | String c t =>
      if is_e c then
        let '(neg, t1) := take_sign t in
        match span is_digit t1 with
        | (String d ds, EmptyString) =>
            let z := digits_value 0 (String d ds) in
            Some (if neg then - z else z)
        | _ => None
        end
      else None
  end.

(** A signed decimal or special literal without surrounding blanks. *)
Definition float_of_literal (s : string) : option pyfloat :=
  let '(neg, s1) := take_sign s in
  let w := lower_string s1 in
  if (w =? "inf")%string || (w =? "infinity")%string then Some (FInf neg)
  else if (w =? "nan")%string then Some (FNaN neg)
  else
    let '(ip, s2) := span is_digit s1 in
    let '(fp, s3) :=
      match s2 with
      | String c t => if is_char "." c then span is_digit t else (EmptyString, s2)
      | EmptyString => (EmptyString, s2)
      end in
    match (ip ++ fp)%string with
    | EmptyString => None
    | mant =>
        match exponent_of s3 with
        | Some ex =>
            Some (float_of_decimal neg (digits_value 0 mant)
                    (ex - Z.of_nat (String.length fp)))
        | None => None
        end
    end.

(** [float(s)] for a [str]. *)
Definition float_of_string (us : bool) (s : string) : option pyfloat :=
  let t := strip_blanks s in
  if us then
    match drop_underscores None t with
    | Some t' => float_of_literal t'
    | None => None
    end
  else float_of_literal t.

(** [int(b)] and [float(b)] for a [bytes] or [bytearray] [b]: the bytes
    are read as the ASCII text of a literal.  A byte of 128 or more is
    no part of a literal and, unlike NEL and NBSP in a [str], no
    blank. *)
Definition int_of_bytes (us : bool) (b : string) : option Z :=
  if all_ascii b then int_of_string us b else None.

Definition float_of_bytes (us : bool) (b : string) : option pyfloat :=
  if all_ascii b then float_of_string us b else None.

(** ** Python values and built-ins *)

(** The values a caller can pass.  [PyInt], [PyFloat] and [PyStr] are
    instances of exactly [int], [float] and [str].  [PyBytes b] is a
    [bytes] object.  [PyObject cls to_int to_float eq_int] is an
    instance of any other class [cls] that derives from none of [int],
    [float] and [str] (a [uuid.UUID], an [ipaddress.IPv4Address], a
    [decimal.Decimal], a [bytearray], ...): the functions reach it only
    through [int(x)], [float(x)], [int(x) == x], [type(x)] and
    [pattern.match(x)], so it is given by what the first three yield:
    [to_int] is the outcome of [int(x)] ([TypeError] when the class
    defines no conversion), [to_float] that of [float(x)], and
    [eq_int n] the truth of [n == x] for an [int] [n].  The methods of
    the object are taken to yield the same at every call. *)
#[warnings="-register-all"]
Inductive pyobj : Type :=
| PyInt (z : Z)
| PyFloat (f : pyfloat)
| PyStr (s : string)
| PyNone
| PyList (l : list pyobj)
| PyBytes (b : string)
| PyObject (cls : string) (to_int : res Z) (to_float : res pyfloat)
    (eq_int : Z -> bool).

Inductive pytype : Type :=
| t_int | t_float | t_str | t_NoneType | t_list | t_bytes
| t_class (cls : string).

Definition type (x : pyobj) : pytype :=
  match x with
  | PyInt _ => t_int
  | PyFloat _ => t_float
  | PyStr _ => t_str
  | PyNone => t_NoneType
  | PyList _ => t_list
  | PyBytes _ => t_bytes
  | PyObject cls _ _ _ => t_class cls
  end.

Definition pytype_eqb (a b : pytype) : bool :=
  match a, b with
  | t_int, t_int | t_float, t_float | t_str, t_str
  | t_NoneType, t_NoneType | t_list, t_list | t_bytes, t_bytes => true
  | t_class c, t_class d => String.eqb c d
  | _, _ => false
  end.

(** [t in (float, int)] *)
Definition in_float_int (t : pytype) : bool :=
  pytype_eqb t t_float || pytype_eqb t t_int.

Section Interpreter.

(** Whether [int] and [float] accept underscores in literals. *)
Variable us : bool.

(** [int(x)] *)
Definition py_int (x : pyobj) : res Z :=
  match x with
  | PyInt z => Ret z
  | PyFloat f => int_of_float f
  | PyStr s =>
      match int_of_string us s with
      | Some z => Ret z
      | None => Raise ValueError
      end
  | PyNone | PyList _ => Raise TypeError
  | PyBytes b =>
      match int_of_bytes us b with
      | Some z => Ret z
      | None => Raise ValueError
      end
  | PyObject _ to_int _ _ => to_int
  end.

(** [float(x)] *)
Definition py_float (x : pyobj) : res pyfloat :=
  match x with
  | PyInt z => float_of_int z
  | PyFloat f => Ret f
  | PyStr s =>
      match float_of_string us s with
      | Some f => Ret f
      | None => Raise ValueError
      end
  | PyNone | PyList _ => Raise TypeError
  | PyBytes b =>
      match float_of_bytes us b with
      | Some f => Ret f
      | None => Raise ValueError
      end
  | PyObject _ _ to_float _ => to_float
  end.

(** [pattern.match(x)] as a truth value; a subject that is not a string
    raises [TypeError] ("expected string or bytes-like object", or, for
    [bytes], "cannot use a string pattern on a bytes-like object"). *)
Definition re_match (r : regex) (x : pyobj) : res bool :=
  match x with
  | PyStr s => Ret (pattern_match r s)
  | _ => Raise TypeError
  end.

(** [z == x] for an [int] [z] and the argument [x]. *)
Definition int_eq_obj (z : Z) (x : pyobj) : bool :=
  match x with
  | PyInt y => z =? y
  | PyFloat f => int_eq_float z f
  | PyObject _ _ _ eq_int => eq_int z
  | _ => false
  end.

(** The compiled patterns bound as default arguments. *)
Definition int_match : pyobj -> res bool := re_match int_pattern.
Definition float_match : pyobj -> res bool := re_match float_pattern.
Definition real_match : pyobj -> res bool := re_match float_pattern.
Definition forceint_int_match : pyobj -> res bool :=
  re_match forceint_int_pattern.

Definition as_int (r : res Z) : res pyobj := z <- r ;; Ret (PyInt z).
Definition as_float (r : res pyfloat) : res pyobj := f <- r ;; Ret (PyFloat f).

(** ** The conversion functions *)

(** [[
def int_re(x, int_match=re.compile(r'[-+]?\d+$').match):
    try:
        if int_match(x):
            return int(x)
        else:
            return x
    except TypeError:
        return int(x)
]] *)
Definition int_re (x : pyobj) : res pyobj :=
  try_except
    (b <- int_match x ;;
     if b then as_int (py_int x) else Ret x)
    TypeError
    (as_int (py_int x)).

(** [[
def int_try(x):
    try:
        return int(x)
    except ValueError:
        return x
]] *)
Definition int_try (x : pyobj) : res pyobj :=
  try_except (as_int (py_int x)) ValueError (Ret x).

(** [[
def float_re(x, float_match=re.compile(r'[-+]?\d*\.?\d+(?:[eE][-+]?\d+)?$').match):
    try:
        if float_match(x):
            return float(x)
        else:
            return x
    except TypeError:
        return float(x)
]] *)
Definition float_re (x : pyobj) : res pyobj :=
  try_except
    (b <- float_match x ;;
     if b then as_float (py_float x) else Ret x)
    TypeError
    (as_float (py_float x)).

(** [[
def float_try(x):
    try:
        return float(x)
    except ValueError:
        return x
]] *)
Definition float_try (x : pyobj) : res pyobj :=
  try_except (as_float (py_float x)) ValueError (Ret x).

(** [[
def real_re(x, int_match=..., real_match=...):
    try:
        if int_match(x):
            return int(x)
        elif real_match(x):
            return float(x)
        else:
            return x
    except TypeError:
        if type(x) in (float, int):
            return x
        else:
            raise TypeError
]] *)
Definition real_re (x : pyobj) : res pyobj :=
  try_except
    (b <- int_match x ;;
     if b then as_int (py_int x)
     else
       b' <- real_match x ;;
       if b' then as_float (py_float x) else Ret x)
    TypeError
    (if in_float_int (type x) then Ret x else Raise TypeError).

(** [[
def real_try(x):
    try:
        a = float(x)
    except ValueError:
        return x
    else:
        b = int(a)
        return b if a == b else b
]]
    Both arms of the final conditional expression are [b]. *)
Definition real_try (x : pyobj) : res pyobj :=
  try_except_else (py_float x) ValueError (Ret x)
    (fun a =>
       b <- int_of_float a ;;
       if int_eq_float b a then Ret (PyInt b) else Ret (PyInt b)).

(** [[
def forceint_re(x, int_match=re.compile(r'[-+]\d+$').match, float_match=...):
    try:
        if int_match(x):
            return int(x)
        elif float_match(x):
            return int(float(x))
        else:
            return x
    except TypeError:
        return int(x)
]] *)
Definition forceint_re (x : pyobj) : res pyobj :=
  try_except
    (b <- forceint_int_match x ;;
     if b then as_int (py_int x)
     else
       b' <- float_match x ;;
       if b' then as_int (a <- py_float x ;; int_of_float a) else Ret x)
    TypeError
    (as_int (py_int x)).

(** [[
def forceint_try(x):
    try:
        return int(x)
    except ValueError:
        try:
            return int(float(x))
        except ValueError:
            return x
]] *)
Definition forceint_try (x : pyobj) : res pyobj :=
  try_except (as_int (py_int x)) ValueError
    (try_except (as_int (a <- py_float x ;; int_of_float a)) ValueError
       (Ret x)).

(** ** The checking functions *)

(** [[
def isint_re(x, int_match=re.compile(r'[-+]?\d+$').match):
    t = type(x)
    return t == int if t in (float, int) else bool(int_match(x))
]] *)
Definition isint_re (x : pyobj) : res bool :=
  let t := type x in
  if in_float_int t then Ret (pytype_eqb t t_int) else int_match x.

(** [[
def isint_try(x):
    try:
        int(x)
    except ValueError:
        return False
    else:
        return type(x) != float
]] *)
Definition isint_try (x : pyobj) : res bool :=
  try_except_else (py_int x) ValueError (Ret false)
    (fun _ => Ret (negb (pytype_eqb (type x) t_float))).

(** [[
def isfloat_re(x, float_match=...):
    t = type(x)
    return t == float if t in (float, int) else bool(float_match(x))
]] *)
Definition isfloat_re (x : pyobj) : res bool :=
  let t := type x in
  if in_float_int t then Ret (pytype_eqb t t_float) else float_match x.

(** [[
def isfloat_try(x):
    try:
        float(x)
    except ValueError:
        return False
    else:
        return type(x) != int
]] *)
Definition isfloat_try (x : pyobj) : res bool :=
  try_except_else (py_float x) ValueError (Ret false)
    (fun _ => Ret (negb (pytype_eqb (type x) t_int))).

(** [[
def isreal_re(x, real_match=...):
    return type(x) in (float, int) or bool(real_match(x))
]] *)
Definition isreal_re (x : pyobj) : res bool :=
  if in_float_int (type x) then Ret true else real_match x.

(** [[
def isreal_try(x):
    try:
        float(x)
    except ValueError:
        return False
    else:
        return True
]] *)
Definition isreal_try (x : pyobj) : res bool :=
  try_except_else (py_float x) ValueError (Ret false)
    (fun _ => Ret true).

(** [[
def isintlike_re(x, int_match=..., float_match=...):
    try:
        if int_match(x):
            return True
        elif float_match(x):
            return float(x).is_integer()
        else:
            return False
    except TypeError:
        return int(x) == x
]] *)
Definition isintlike_re (x : pyobj) : res bool :=
  try_except
    (b <- int_match x ;;
     if b then Ret true
     else
       b' <- float_match x ;;
       if b' then a <- py_float x ;; Ret (is_integer a) else Ret false)
    TypeError
    (z <- py_int x ;; Ret (int_eq_obj z x)).

(** [[
def isintlike_try(x):
    try:
        a = int(x)
    except ValueError:
        try:
            a = float(x)
        except ValueError:
            return False
        else:
            return a.is_integer()
    else:
        return a == float(x)
]] *)
Definition isintlike_try (x : pyobj) : res bool :=
  try_except_else (py_int x) ValueError
    (try_except_else (py_float x) ValueError (Ret false)
       (fun a => Ret (is_integer a)))
    (fun a => f <- py_float x ;; Ret (int_eq_float a f)).

End Interpreter.

(** ** Vocabulary of the properties *)

(** The "Large Int String" of the timing table. *)
Definition large_int_literal : string := "35892482945872302493947939485729".
Definition large_int_value : Z := 35892482945872302493947939485729.

(** The doubles 1.0, 1.5 and 3.0. *)
Definition f_1_0 : pyfloat := FFinite false 4503599627370496 (-52).
Definition f_1_5 : pyfloat := FFinite false 6755399441055744 (-52).
Definition f_3_0 : pyfloat := FFinite false 6755399441055744 (-51).




(** A string that neither [int] nor [float] accepts. *)
Definition malformed (us : bool) (s : string) : Prop :=
  int_of_string us s = None /\ float_of_string us s = None.

Definition is_PyInt (r : res pyobj) : Prop := exists z, r = Ret (PyInt z).
Definition is_PyFloat (r : res pyobj) : Prop := exists f, r = Ret (PyFloat f).
Definition is_number (r : res pyobj) : Prop := is_PyInt r \/ is_PyFloat r.


(** Every character of [s] satisfies [p]. *)
Fixpoint all_chars (p : ascii -> bool) (s : string) : bool :=
  match s with
  | String c t => p c && all_chars p t
  | EmptyString => true
  end.

Definition not_space (c : ascii) : bool := negb (is_space c).

Definition not_underscore (c : ascii) : bool := negb (is_char "_" c).

(** The characters of the strings the patterns accept, final newline
    apart. *)
Definition literal_char (c : ascii) : bool :=
  is_digit c || is_sign c || is_char "." c || is_e c.

(** [b] is empty or begins with a character outside [p]. *)
Definition stops_at (p : ascii -> bool) (b : string) : Prop :=
  match b with
  | String c _ => p c = false
  | EmptyString => True
  end.

(** *** Shapes of the strings the patterns accept *)

Definition sign_string (s : string) : Prop :=
  s = "" \/ s = "+" \/ s = "-".

Definition point_string (s : string) : Prop :=
  s = "" \/ s = ".".

(** What [$] leaves unread: nothing, or one final newline. *)
Inductive newline_part : string -> Prop :=
| newline_absent : newline_part ""
| newline_present : newline_part (String newline "").

(** A sign and one or more digits. *)
Inductive int_shape : string -> Prop :=
| int_shape_intro (sg d : string) :
    sign_string sg ->
    all_chars is_digit d = true ->
    d <> "" ->
    int_shape (sg ++ d).

(** An exponent: nothing, or a marker, a sign and one or more digits. *)
Inductive exponent_shape : string -> Prop :=
| exponent_absent : exponent_shape ""
| exponent_present (c : ascii) (sg d : string) :
    is_e c = true ->
    sign_string sg ->
    all_chars is_digit d = true ->
    d <> "" ->
    exponent_shape (String c (sg ++ d)).

(** A sign, digits, an optional point, one or more digits, an exponent. *)
Inductive float_shape : string -> Prop :=
| float_shape_intro (sg d1 pt d2 ex : string) :
    sign_string sg ->
    all_chars is_digit d1 = true ->
    point_string pt ->
    all_chars is_digit d2 = true ->
    d2 <> "" ->
    exponent_shape ex ->
    float_shape (sg ++ d1 ++ pt ++ d2 ++ ex).

(** The decimal literals of [float]: as [float_shape], except that the
    digits may all stand before the point. *)
Inductive decimal_shape : string -> Prop :=
| decimal_shape_intro (sg d1 pt d2 ex : string) :
    sign_string sg ->
    all_chars is_digit d1 = true ->
    point_string pt ->
    all_chars is_digit d2 = true ->
    (d1 ++ d2)%string <> "" ->
    exponent_shape ex ->
    decimal_shape (sg ++ d1 ++ pt ++ d2 ++ ex).

Fixpoint last_char (s : string) : option ascii :=
  match s with
  | String c EmptyString => Some c
  | String _ t => last_char t
  | EmptyString => None
  end.

(** The value of a signed string of digits. *)
Definition signed_digits_value (sg d : string) : Z :=
  if (sg =? "-")%string then - digits_value 0 d else digits_value 0 d.

(** *** Vocabulary of the further properties *)

Definition starts_with_sign (s : string) : bool :=
  match s with
  | String c _ => is_sign c
  | EmptyString => false
  end.


Definition is_nan (x : pyobj) : bool :=
  match x with
  | PyFloat (FNaN _) => true
  | _ => false
  end.

Definition is_str (x : pyobj) : bool := pytype_eqb (type x) t_str.

Definition not_separator (c : ascii) : bool := negb (is_separator c).

(** The separator FS followed by "12". *)
Definition separator_12 : string := String (ascii_of_nat 28) "12".

(** A [bytes] object or an instance of another class. *)
Definition bytes_or_instance (x : pyobj) : bool :=
  match x with
  | PyBytes _ | PyObject _ _ _ _ => true
  | _ => false
  end.

(** ** The result tables

    [[
class Table(list):
    def add_row(self, *elements):
        self.append('|'.join(elements))
    def add_header(self, *elements):
        self.add_row( *elements)
        seperators = ['---'] * len(elements)
        seperators = [sep + (':' if i != 0 else '') for i, sep in enumerate(seperators)]
        self.add_row( *seperators)
    def __str__(self):
        return '\n'.join(self)
]]
    A [Table] is the list of its rows; the methods that mutate the list
    return the new list. *)

Definition Table : Type := list string.

(** [sep.join(xs)] *)
Fixpoint join (sep : string) (xs : list string) : string :=
  match xs with
  | [] => EmptyString
  | [x] => x
  | x :: rest => (x ++ sep ++ join sep rest)%string
  end.

(** [enumerate(xs)], counting from [i] *)
Fixpoint enumerate_from {A : Type} (i : nat) (xs : list A) : list (nat * A) :=
  match xs with
  | [] => []
  | x :: rest => (i, x) :: enumerate_from (S i) rest
  end.

Definition add_row (self : Table) (elements : list string) : Table :=
  (self ++ [join "|" elements])%list.

Definition add_header (self : Table) (elements : list string) : Table :=
  let self1 := add_row self elements in
  let seperators := repeat "---" (List.length elements) in
  let seperators :=
    map (fun '(i, sep) => (sep ++ (if negb (Nat.eqb i 0) then ":" else ""))%string)
      (enumerate_from 0 seperators) in
  add_row self1 seperators.

Definition Table_str (self : Table) : string :=
  join (String newline EmptyString) self.

(** [s.split(c)] for a one-character separator: how a reader of the
    Markdown text finds the cells of a row and the rows of a table. *)
Fixpoint split_on (c : ascii) (s : string) : list string :=
  match s with
  | EmptyString => [EmptyString]
  | String x t =>
      if Ascii.eqb x c then EmptyString :: split_on c t
      else
        match split_on c t with
        | h :: r => String x h :: r
        | [] => [String x EmptyString]
        end
  end.

(** The string holds no occurrence of [c]. *)
Definition free_of (c : ascii) (s : string) : bool :=
  all_chars (fun x => negb (Ascii.eqb x c)) s.

(** ** The timer

    [[
class Timer(object):
    THINGS_TO_TIME = (
        ('not_a_number', 'Non-number String'),
        ('-41053', 'Int String'),
        ('35892482945872302493947939485729', 'Large Int String'),
        ('-41053.543034e34', 'Float String'),
        ('-41053.543028758302e256', 'Large Float String'),
        (-41053, 'Int'),
        (-41053.543028758302e100, 'Float'),
    )
    FUNCTION_CALL_FMT = '{}({!r})'
    def add_function(self, func, label, setup='pass'):
        self.functions.append((func, setup, label))
    def time_functions(self, repeat=5):
        function_labels = [label + ' (ms)' for _, _, label in self.functions]
        table = Table()
        table.add_header('Input type', *function_labels)
        for value, value_label in self.THINGS_TO_TIME:
            row = []
            for func, setup, _ in self.functions:
                call = self.FUNCTION_CALL_FMT.format(func, value)
                try:
                    row.append(self._timeit(call, setup, repeat))
                except (ValueError, TypeError):
                    break
            else:
                row = [(mean * 1000, stddev * 1000) for mean, stddev in row]
                min_indx = min(enumerate(row), key=lambda x: x[1])[0]
                row = ['{:.3f} ± {:.3f}'.format( *x) for x in row]
                row[min_indx] = self.bold(row[min_indx])
                table.add_row(value_label, *row)
        display(Markdown(str(table)))
    @staticmethod
    def mean(x):
        return math.fsum(x) / len(x)
    @staticmethod
    def stddev(x):
        mean = Timer.mean(x)
        sum_of_squares = math.fsum((v - mean)**2 for v in x)
        return math.sqrt(sum_of_squares / (len(x) - 1))
    @staticmethod
    def bold(x):
        return "**{}**".format(x)
    def _timeit(self, call, setup, repeat=5):
        result = timeit.repeat(call, setup, number=100000, repeat=repeat)
        return self.mean(result), self.stddev(result)
]]
    What a run of [timeit] measures and how floating-point arithmetic
    rounds are not decided by the notebook: the embedding takes the
    floats and the operations on them as given ([measure]), and the
    outcome of every single run from an oracle.  Which operations
    run, in which order, on how many measurements and with which
    divisor, which exceptions they let out and which of them
    [time_functions] catches is the notebook's and is modelled. *)

Definition THINGS_TO_TIME : list (pyobj * string) :=
  [ (PyStr "not_a_number", "Non-number String");
    (PyStr "-41053", "Int String");
    (PyStr "35892482945872302493947939485729", "Large Int String");
    (PyStr "-41053.543034e34", "Float String");
    (PyStr "-41053.543028758302e256", "Large Float String");
    (PyInt (-41053), "Int");
    (PyFloat (FFinite true 6449141753913485 295), "Float") ].

(** A function to time: [(func, setup, label)]. *)
Definition timed : Type := (string * string * string)%type.

Definition add_function (functions : list timed) (func label setup : string)
  : list timed :=
  (functions ++ [(func, setup, label)])%list.

Definition bold (x : string) : string := ("**" ++ x ++ "**")%string.

(** [row[k] = v], for [k] within the list *)
Fixpoint set_item (row : list string) (k : nat) (v : string) : list string :=
  match row, k with
  | [], _ => []
  | _ :: rest, O => v :: rest
  | x :: rest, S k' => x :: set_item rest k' v
  end.

(** *** The cells of a row *)

Section Cells.

(** A measurement: a pair (mean, stddev). *)
Variable timing : Type.

(** [(mean * 1000, stddev * 1000)] *)
Variable to_ms : timing -> timing.

(** [a < b] on two such pairs *)
Variable lt : timing -> timing -> bool.

(** ['{:.3f} ± {:.3f}'.format( *x)] *)
Variable fmt : timing -> string.

(** The scan of [min]: [best] at index [k] is the least element so far,
    [xs] are the elements from index [i] on.  A later element replaces
    the best one only when it is smaller. *)
Fixpoint min_scan (k : nat) (best : timing) (i : nat) (xs : list timing) : nat :=
  match xs with
  | [] => k
  | x :: rest =>
      if lt x best then min_scan i x (S i) rest
      else min_scan k best (S i) rest
  end.

(** [min(enumerate(row), key=lambda x: x[1])[0]]; [min] of an empty
    sequence raises [ValueError]. *)
Definition min_index (row : list timing) : res nat :=
  match row with
  | [] => Raise ValueError
  | x :: rest => Ret (min_scan 0 x 1 rest)
  end.

(** The [else] suite: the cells of a completed row. *)
Definition row_cells (row : list timing) : res (list string) :=
  let row := map to_ms row in
  min_indx <- min_index row ;;
  let cells := map fmt row in
  Ret (set_item cells min_indx (bold (nth min_indx cells EmptyString))).

End Cells.

(** *** Measurements *)

(** The floats [timeit] returns and the operations the timer applies to
    them.  An operation that can raise on a float ([math.fsum] and
    [**] with [OverflowError], [math.sqrt] with [ValueError]) yields a
    [res]. *)
Record measure : Type := {
  seconds : Type;
  (** [math.fsum(x)] *)
  fsum : list seconds -> res seconds;
  (** [a / n] for an [int] [n] other than 0 *)
  div_int : seconds -> Z -> seconds;
  (** [a - b] *)
  minus : seconds -> seconds -> seconds;
  (** [a ** 2] *)
  square : seconds -> res seconds;
  (** [math.sqrt(a)] *)
  sqrt : seconds -> res seconds;
  (** [a * 1000] *)
  times_1000 : seconds -> seconds;
  (** [(a, b) < (c, d)] on tuples of two floats *)
  pair_lt : seconds * seconds -> seconds * seconds -> bool;
  (** ['{:.3f}'.format(a)] *)
  format_3f : seconds -> string
}.

(** The sign of ['{:.3f} ± {:.3f}'], U+00B1. *)
Definition plus_minus : ascii := ascii_of_nat 177.

(** A measure on whole seconds, to run the timer on. *)
Definition whole_seconds : measure :=
  {| seconds := Z;
     fsum := fun x => Ret (fold_right Z.add 0 x);
     div_int := Z.div;
     minus := Z.sub;
     square := fun a => Ret (a * a);
     sqrt := fun a => if a <? 0 then Raise ValueError else Ret (Z.sqrt a);
     times_1000 := fun a => a * 1000;
     pair_lt := fun a b =>
       (fst a <? fst b) || ((fst a =? fst b) && (snd a <? snd b));
     format_3f := fun _ => "t" |}.

(** [[f(x) for x in xs]], stopped by the first call that raises *)
Fixpoint map_res {A B : Type} (f : A -> res B) (xs : list A) : res (list B) :=
  match xs with
  | [] => Ret []
  | x :: rest =>
      y <- f x ;;
      ys <- map_res f rest ;;
      Ret (y :: ys)
  end.

Section Timing.

Variable M : measure.

(** [timeit.Timer(call, setup)] for the statement [func(value)]:
    compiling the statement and the setup, which raises for text that
    is no Python. *)
Variable build : string -> pyobj -> string -> res unit.

(** [run i j func value setup k]: the [k]-th run of [number=100000]
    executions of the statement [func(value)], for the [j]-th function
    on the [i]-th value: the seconds it took, or what the setup or the
    statement raised. *)
Variable run : nat -> nat -> string -> pyobj -> string -> nat -> res (seconds M).

(** The loop of [Timer.repeat]: [n] runs, the first numbered [k]. *)
Fixpoint runs (f : nat -> res (seconds M)) (k n : nat) : res (list (seconds M)) :=
  match n with
  | O => Ret []
  | S n' =>
      t <- f k ;;
      r <- runs f (S k) n' ;;
      Ret (t :: r)
  end.

(** [timeit.repeat(call, setup, number=100000, repeat=repeat)] *)
Definition timeit_repeat (i j : nat) (func : string) (value : pyobj)
  (setup : string) (repeat_ : nat) : res (list (seconds M)) :=
  _ <- build func value setup ;;
  runs (run i j func value setup) 0 repeat_.

(** [a / n] for an [int] [n]: division by zero raises. *)
Definition true_div (a : seconds M) (n : Z) : res (seconds M) :=
  if n =? 0 then Raise ZeroDivisionError else Ret (div_int M a n).

(** [[
    def mean(x):
        return math.fsum(x) / len(x)
]] *)
Definition mean (x : list (seconds M)) : res (seconds M) :=
  s <- fsum M x ;;
  true_div s (Z.of_nat (List.length x)).

(** [[
    def stddev(x):
        mean = Timer.mean(x)
        sum_of_squares = math.fsum((v - mean)**2 for v in x)
        return math.sqrt(sum_of_squares / (len(x) - 1))
]]
    [math.fsum] draws the squares from the generator one by one: a
    square that raises ends the sum. *)
Definition stddev (x : list (seconds M)) : res (seconds M) :=
  mean_ <- mean x ;;
  squares <- map_res (fun v => square M (minus M v mean_)) x ;;
  sum_of_squares <- fsum M squares ;;
  q <- true_div sum_of_squares (Z.of_nat (List.length x) - 1) ;;
  sqrt M q.

(** [[
    def _timeit(self, call, setup, repeat=5):
        result = timeit.repeat(call, setup, number=100000, repeat=repeat)
        return self.mean(result), self.stddev(result)
]]
    for the call [func(value)] of the [j]-th function on the [i]-th
    value. *)
Definition _timeit (i j : nat) (func : string) (value : pyobj)
  (setup : string) (repeat_ : nat) : res (seconds M * seconds M) :=
  result <- timeit_repeat i j func value setup repeat_ ;;
  m <- mean result ;;
  s <- stddev result ;;
  Ret (m, s).

(** A measurement: the pair [_timeit] returns. *)
Definition timing : Type := (seconds M * seconds M)%type.

(** [(mean * 1000, stddev * 1000)] *)
Definition to_ms (t : timing) : timing :=
  let '(mean_, stddev_) := t in (times_1000 M mean_, times_1000 M stddev_).

(** ['{:.3f} ± {:.3f}'.format( *x)] *)
Definition fmt (t : timing) : string :=
  let '(a, b) := t in
  (format_3f M a ++ " " ++ String plus_minus " " ++ format_3f M b)%string.

(** The inner loop: the measurements of one value, [None] after a
    [break].  An exception that is neither a [ValueError] nor a
    [TypeError] leaves the loop and [time_functions]. *)
Fixpoint time_row (functions : list timed) (repeat_ : nat) (i j : nat)
  (value : pyobj) : res (option (list timing)) :=
  match functions with
  | [] => Ret (Some [])
  | (func, setup, _) :: rest =>
      match _timeit i j func value setup repeat_ with
      | Ret t =>
          r <- time_row rest repeat_ i (S j) value ;;
          Ret (option_map (cons t) r)
      | Raise ValueError | Raise TypeError => Ret None
      | Raise e => Raise e
      end
  end.

(** The outer loop over the values still to time, [i] being the index of
    the first of them. *)
Fixpoint time_values (functions : list timed) (repeat_ : nat) (i : nat)
  (things : list (pyobj * string)) (table : Table) : res Table :=
  match things with
  | [] => Ret table
  | (value, value_label) :: rest =>
      r <- time_row functions repeat_ i 0 value ;;
      match r with
      | None => time_values functions repeat_ (S i) rest table
      | Some row =>
          cells <- row_cells timing to_ms (pair_lt M) fmt row ;;
          time_values functions repeat_ (S i) rest
            (add_row table (value_label :: cells))
      end
  end.

(** The table [time_functions] builds. *)
Definition time_table (functions : list timed) (repeat_ : nat) : res Table :=
  let function_labels :=
    map (fun '(_, _, label) => (label ++ " (ms)")%string) functions in
  let table := add_header [] ("Input type" :: function_labels) in
  time_values functions repeat_ 0 THINGS_TO_TIME table.

(** [time_functions]: the Markdown text it displays. *)
Definition time_functions (functions : list timed) (repeat_ : nat)
  : res string :=
  table <- time_table functions repeat_ ;;
  Ret (Table_str table).




End Timing.

(** *** Proof steps used throughout *)

(** A fact about one character, checked on all 256 of them. *)
Ltac by_char c :=
  destruct c as [[|] [|] [|] [|] [|] [|] [|] [|]];
  vm_compute; intros; try reflexivity; try discriminate; auto.


(** * Properties *)

(** ** Characters and strings *)

Lemma digit_not_sign : forall c, is_digit c = true -> is_sign c = false.
Proof. intros c. by_char c. Qed.

Lemma sign_cases :
  forall c, is_sign c = true -> c = "+"%char \/ c = "-"%char.
Proof. intros c. by_char c. Qed.

Lemma e_cases : forall c, is_e c = true -> c = "e"%char \/ c = "E"%char.
Proof. intros c. by_char c. Qed.

Lemma point_case : forall c, is_char "." c = true -> c = "."%char.
Proof. intros c. by_char c. Qed.

Lemma newline_case : forall c, is_char newline c = true -> c = newline.
Proof. intros c. by_char c. Qed.

Lemma append_empty_r : forall s : string, (s ++ "")%string = s.
Proof.
  induction s as [| c t IH]; simpl; [reflexivity | rewrite IH; reflexivity].
Qed.

Lemma append_assoc :
  forall a b c : string, ((a ++ b) ++ c)%string = (a ++ b ++ c)%string.
Proof.
  induction a as [| x a IH]; intros b c; simpl;
    [reflexivity | rewrite IH; reflexivity].
Qed.

Lemma all_chars_app :
  forall p a b,
    all_chars p (a ++ b) = all_chars p a && all_chars p b.
Proof.
  intros p a b. induction a as [| c t IH]; simpl.
  - reflexivity.
  - rewrite IH. apply andb_assoc.
Qed.

(** ** What the matcher accepts *)

Lemma star_k_inv :
  forall p s k,
    star_k p s k = true ->
    exists a b, s = (a ++ b)%string /\ all_chars p a = true /\ k b = true.
Proof.
  intros p s k. induction s as [| c t IH]; simpl; intros H.
  - exists "", "". repeat split; assumption.
  - apply orb_true_iff in H. destruct H as [H | H].
    + apply andb_true_iff in H. destruct H as [Hc Ht].
      destruct (IH Ht) as (a & b & -> & Ha & Hb).
      exists (String c a), b. simpl. rewrite Hc, Ha. repeat split; assumption.
    + exists "", (String c t). repeat split; assumption.
Qed.

Lemma star_k_intro :
  forall p a b k,
    all_chars p a = true -> k b = true -> star_k p (a ++ b) k = true.
Proof.
  intros p a b k. induction a as [| c t IH]; simpl; intros Ha Hb.
  - destruct b; simpl; [assumption | rewrite Hb; apply orb_true_r].
  - apply andb_true_iff in Ha. destruct Ha as [Hc Ht].
    rewrite Hc, (IH Ht Hb). reflexivity.
Qed.

Lemma plus_inv :
  forall p s k,
    matchk (Plus p) s k = true ->
    exists a b,
      s = (a ++ b)%string /\ all_chars p a = true /\ a <> "" /\ k b = true.
Proof.
  intros p s k H. destruct s as [| c t]; simpl in H; [discriminate |].
  apply andb_true_iff in H. destruct H as [Hc Ht].
  destruct (star_k_inv p t k Ht) as (a & b & -> & Ha & Hb).
  exists (String c a), b. simpl. rewrite Hc, Ha.
  repeat split; [discriminate | assumption].
Qed.

Lemma plus_intro :
  forall p a b k,
    all_chars p a = true -> a <> "" -> k b = true ->
    matchk (Plus p) (a ++ b) k = true.
Proof.
  intros p a b k Ha Hne Hb. destruct a as [| c t]; [contradiction |].
  simpl in *. apply andb_true_iff in Ha. destruct Ha as [Hc Ht].
  rewrite Hc. simpl. apply star_k_intro; assumption.
Qed.

Lemma optcls_sign_inv :
  forall s k,
    matchk (OptCls is_sign) s k = true ->
    exists sg t, s = (sg ++ t)%string /\ sign_string sg /\ k t = true.
Proof.
  intros s k H. destruct s as [| c t]; simpl in H.
  - exists "", "". repeat split; [left; reflexivity | assumption].
  - apply orb_true_iff in H. destruct H as [H | H].
    + apply andb_true_iff in H. destruct H as [Hc Ht].
      exists (String c ""), t. repeat split; [| assumption].
      destruct (sign_cases c Hc) as [-> | ->];
        [right; left | right; right]; reflexivity.
    + exists "", (String c t). repeat split; [left; reflexivity | assumption].
Qed.

Lemma optcls_sign_intro :
  forall sg t k,
    sign_string sg -> k t = true -> matchk (OptCls is_sign) (sg ++ t) k = true.
Proof.
  intros sg t k [-> | [-> | ->]] H; simpl.
  - destruct t; [assumption | rewrite H; apply orb_true_r].
  - rewrite H. reflexivity.
  - rewrite H. reflexivity.
Qed.

Lemma dollar_inv :
  forall s, at_dollar s && true = true -> newline_part s.
Proof.
  intros s H. rewrite andb_true_r in H.
  destruct s as [| c [| d t]]; simpl in H; try discriminate.
  - constructor.
  - rewrite (newline_case c H). constructor.
Qed.

Lemma dollar_intro :
  forall s, newline_part s -> at_dollar s && true = true.
Proof.
  intros s []; reflexivity.
Qed.

Lemma matchk_cat :
  forall r1 r2 s k,
    matchk (Cat r1 r2) s k = matchk r1 s (fun t => matchk r2 t k).
Proof. reflexivity. Qed.

Lemma matchk_dollar :
  forall s k, matchk Dollar s k = at_dollar s && k s.
Proof. reflexivity. Qed.

(** The strings [[-+]?\d+$] accepts. *)
Lemma int_pattern_inv :
  forall s,
    pattern_match int_pattern s = true ->
    exists body nl,
      s = (body ++ nl)%string /\ int_shape body /\ newline_part nl.
Proof.
  intros s H. unfold pattern_match, int_pattern in H.
  rewrite matchk_cat in H.
  destruct (optcls_sign_inv _ _ H) as (sg & t & -> & Hsg & Ht).
  rewrite matchk_cat in Ht.
  destruct (plus_inv _ _ _ Ht) as (d & nl & -> & Hd & Hne & Hnl).
  exists (sg ++ d)%string, nl. rewrite append_assoc.
  split; [reflexivity |].
  split; [constructor; assumption | apply dollar_inv; exact Hnl].
Qed.

Lemma int_pattern_intro :
  forall body nl,
    int_shape body -> newline_part nl ->
    pattern_match int_pattern (body ++ nl) = true.
Proof.
  intros body nl [sg d Hsg Hd Hne] Hnl.
  unfold pattern_match, int_pattern.
  rewrite append_assoc, matchk_cat.
  apply optcls_sign_intro; [assumption |].
  rewrite matchk_cat.
  apply plus_intro; try assumption.
  rewrite matchk_dollar. apply dollar_intro. exact Hnl.
Qed.

(** ** What [int] accepts *)

Lemma literal_char_not_space :
  forall c, literal_char c = true -> not_space c = true.
Proof. intros c. by_char c. Qed.

Lemma literal_char_not_underscore :
  forall c, literal_char c = true -> not_underscore c = true.
Proof. intros c. by_char c. Qed.

Lemma digit_literal_char : forall c, is_digit c = true -> literal_char c = true.
Proof. intros c. by_char c. Qed.

Lemma all_chars_impl :
  forall (p q : ascii -> bool) s,
    (forall c, p c = true -> q c = true) ->
    all_chars p s = true -> all_chars q s = true.
Proof.
  intros p q s Hpq. induction s as [| c t IH]; simpl; intros H.
  - reflexivity.
  - apply andb_true_iff in H. destruct H as [Hc Ht].
    rewrite (Hpq c Hc), (IH Ht). reflexivity.
Qed.

Lemma sign_string_literal :
  forall sg, sign_string sg -> all_chars literal_char sg = true.
Proof. intros sg [-> | [-> | ->]]; reflexivity. Qed.

Lemma rstrip_cons_not_space :
  forall c t, not_space c = true -> rstrip_blanks (String c t) = String c (rstrip_blanks t).
Proof.
  intros c t H. unfold not_space in H. apply negb_true_iff in H.
  simpl. rewrite H. destruct (rstrip_blanks t); reflexivity.
Qed.

Lemma rstrip_app_not_space :
  forall a b,
    all_chars not_space a = true -> rstrip_blanks (a ++ b) = (a ++ rstrip_blanks b)%string.
Proof.
  induction a as [| c t IH]; intros b H.
  - reflexivity.
  - simpl in H. apply andb_true_iff in H. destruct H as [Hc Ht].
    change (String c t ++ b)%string with (String c (t ++ b)).
    rewrite (rstrip_cons_not_space c _ Hc), (IH b Ht). reflexivity.
Qed.

(** Stripping removes exactly the final newline [$] tolerates. *)
Lemma strip_body :
  forall body nl,
    all_chars not_space body = true -> newline_part nl ->
    strip_blanks (body ++ nl) = body.
Proof.
  intros body nl Hb Hnl. unfold strip_blanks.
  assert (L : lstrip_blanks (body ++ nl) = (body ++ nl)%string \/ body = "").
  { destruct body as [| c t]; [right; reflexivity | left].
    simpl in Hb. apply andb_true_iff in Hb. destruct Hb as [Hc _].
    unfold not_space in Hc. apply negb_true_iff in Hc.
    simpl. rewrite Hc. reflexivity. }
  destruct L as [-> | ->].
  - rewrite (rstrip_app_not_space body nl Hb).
    destruct Hnl; simpl; apply append_empty_r.
  - destruct Hnl; reflexivity.
Qed.

Lemma int_digits_plain :
  forall us d acc prev,
    all_chars is_digit d = true ->
    d <> "" \/ prev = true ->
    int_digits us acc prev d = Some (digits_value acc d).
Proof.
  intros us d. induction d as [| c t IH]; intros acc prev Hd Hne.
  - destruct Hne as [Hne | ->]; [contradiction | reflexivity].
  - simpl in *. apply andb_true_iff in Hd. destruct Hd as [Hc Ht].
    rewrite Hc. apply IH; [assumption | right; reflexivity].
Qed.

Lemma take_sign_digits :
  forall d, all_chars is_digit d = true -> take_sign d = (false, d).
Proof.
  intros d H. destruct d as [| c t]; [reflexivity |].
  simpl in H. apply andb_true_iff in H. destruct H as [Hc _].
  pose proof (digit_not_sign c Hc) as Hs. unfold is_sign in Hs.
  apply orb_false_iff in Hs. destruct Hs as [Hp Hm].
  unfold take_sign. rewrite Hm, Hp. reflexivity.
Qed.

(** A signed digit string, with or without the final newline, is read
    by [int] as its value. *)
Lemma int_of_string_signed_digits :
  forall us sg d nl,
    sign_string sg ->
    all_chars is_digit d = true ->
    d <> "" ->
    newline_part nl ->
    int_of_string us ((sg ++ d) ++ nl) = Some (signed_digits_value sg d).
Proof.
  intros us sg d nl Hsg Hd Hne Hnl. unfold int_of_string.
  rewrite strip_body; [| | assumption].
  - destruct Hsg as [-> | [-> | ->]]; simpl.
    + rewrite (take_sign_digits d Hd).
      rewrite (int_digits_plain us d 0 false Hd (or_introl Hne)). reflexivity.
    + rewrite (int_digits_plain us d 0 false Hd (or_introl Hne)). reflexivity.
    + rewrite (int_digits_plain us d 0 false Hd (or_introl Hne)). reflexivity.
  - rewrite all_chars_app.
    rewrite (all_chars_impl _ _ sg literal_char_not_space
               (sign_string_literal sg Hsg)).
    apply (all_chars_impl is_digit); [| assumption].
    intros c Hc. apply literal_char_not_space, digit_literal_char, Hc.
Qed.

(** Whatever [[-+]?\d+$] accepts, [int] accepts. *)
Lemma int_pattern_sound :
  forall us s,
    pattern_match int_pattern s = true ->
    exists z, int_of_string us s = Some z.
Proof.
  intros us s H.
  destruct (int_pattern_inv s H) as (body & nl & -> & Hb & Hnl).
  destruct Hb as [sg d Hsg Hd Hne].
  eexists. apply int_of_string_signed_digits; assumption.
Qed.

(** ** What the float pattern accepts *)

Lemma matchk_star : forall p s k, matchk (Star p) s k = star_k p s k.
Proof. reflexivity. Qed.

Lemma matchk_cls :
  forall p c t k, matchk (Cls p) (String c t) k = p c && k t.
Proof. reflexivity. Qed.

Lemma optcls_point_inv :
  forall s k,
    matchk (OptCls (is_char ".")) s k = true ->
    exists pt t, s = (pt ++ t)%string /\ point_string pt /\ k t = true.
Proof.
  intros s k H. destruct s as [| c t]; simpl in H.
  - exists "", "". repeat split; [left; reflexivity | assumption].
  - apply orb_true_iff in H. destruct H as [H | H].
    + apply andb_true_iff in H. destruct H as [Hc Ht].
      exists (String c ""), t. rewrite (point_case c Hc).
      repeat split; [right; reflexivity | assumption].
    + exists "", (String c t). repeat split; [left; reflexivity | assumption].
Qed.

Lemma optcls_point_intro :
  forall pt t k,
    point_string pt -> k t = true ->
    matchk (OptCls (is_char ".")) (pt ++ t) k = true.
Proof.
  intros pt t k [-> | ->] H; simpl.
  - destruct t; [assumption | rewrite H; apply orb_true_r].
  - rewrite H. reflexivity.
Qed.

Lemma exponent_group_inv :
  forall s k,
    matchk exponent_group s k = true ->
    exists ex t, s = (ex ++ t)%string /\ exponent_shape ex /\ k t = true.
Proof.
  intros s k H. unfold exponent_group in H.
  change (matchk (Cat (Cls is_e) (Cat (OptCls is_sign) (Plus is_digit))) s k
          || k s = true) in H.
  apply orb_true_iff in H. destruct H as [H | H].
  - rewrite matchk_cat in H. destruct s as [| c t]; simpl in H; [discriminate |].
    apply andb_true_iff in H. destruct H as [Hc Ht].
    destruct (optcls_sign_inv _ _ Ht) as (sg & u & -> & Hsg & Hu).
    destruct (plus_inv _ _ _ Hu) as (d & v & -> & Hd & Hne & Hv).
    exists (String c (sg ++ d)), v. simpl. rewrite append_assoc.
    split; [reflexivity |]. split; [constructor; assumption | assumption].
  - exists "", s. split; [reflexivity |]. split; [constructor | assumption].
Qed.

Lemma exponent_group_intro :
  forall ex t k,
    exponent_shape ex -> k t = true ->
    matchk exponent_group (ex ++ t) k = true.
Proof.
  intros ex t k Hex Ht. unfold exponent_group.
  change (matchk (Cat (Cls is_e) (Cat (OptCls is_sign) (Plus is_digit)))
            (ex ++ t) k || k (ex ++ t) = true).
  destruct Hex as [| c sg d Hc Hsg Hd Hne].
  - simpl. rewrite Ht. apply orb_true_r.
  - apply orb_true_iff. left. rewrite matchk_cat.
    change (String c (sg ++ d) ++ t)%string with (String c ((sg ++ d) ++ t)).
    rewrite matchk_cls, Hc, andb_true_l, append_assoc, matchk_cat.
    apply optcls_sign_intro; [assumption |].
    apply plus_intro; assumption.
Qed.

(** The strings [[-+]?\d*\.?\d+(?:[eE][-+]?\d+)?$] accepts. *)
Lemma float_pattern_inv :
  forall s,
    pattern_match float_pattern s = true ->
    exists body nl,
      s = (body ++ nl)%string /\ float_shape body /\ newline_part nl.
Proof.
  intros s H. unfold pattern_match, float_pattern in H.
  rewrite matchk_cat in H.
  destruct (optcls_sign_inv _ _ H) as (sg & t1 & -> & Hsg & H1).
  rewrite matchk_cat, matchk_star in H1.
  destruct (star_k_inv _ _ _ H1) as (d1 & t2 & -> & Hd1 & H2).
  rewrite matchk_cat in H2.
  destruct (optcls_point_inv _ _ H2) as (pt & t3 & -> & Hpt & H3).
  rewrite matchk_cat in H3.
  destruct (plus_inv _ _ _ H3) as (d2 & t4 & -> & Hd2 & Hne & H4).
  rewrite matchk_cat in H4.
  destruct (exponent_group_inv _ _ H4) as (ex & nl & -> & Hex & H5).
  exists (sg ++ d1 ++ pt ++ d2 ++ ex)%string, nl.
  split; [rewrite !append_assoc; reflexivity |].
  split; [constructor; assumption | apply dollar_inv; exact H5].
Qed.

Lemma float_pattern_intro :
  forall body nl,
    float_shape body -> newline_part nl ->
    pattern_match float_pattern (body ++ nl) = true.
Proof.
  intros body nl [sg d1 pt d2 ex Hsg Hd1 Hpt Hd2 Hne Hex] Hnl.
  unfold pattern_match, float_pattern.
  rewrite !append_assoc, matchk_cat.
  apply optcls_sign_intro; [assumption |].
  rewrite matchk_cat, matchk_star.
  apply star_k_intro; [assumption |].
  rewrite matchk_cat.
  apply optcls_point_intro; [assumption |].
  rewrite matchk_cat.
  apply plus_intro; try assumption.
  rewrite matchk_cat.
  apply exponent_group_intro; [assumption |].
  rewrite matchk_dollar. apply dollar_intro. exact Hnl.
Qed.

(** An integer shape is a float shape without point and exponent. *)
Lemma int_shape_float_shape :
  forall s, int_shape s -> float_shape s.
Proof.
  intros s [sg d Hsg Hd Hne].
  replace (sg ++ d)%string with (sg ++ "" ++ "" ++ d ++ "")%string
    by (simpl; rewrite append_empty_r; reflexivity).
  constructor; try assumption; try reflexivity.
  - left; reflexivity.
  - constructor.
Qed.

(** Whatever the integer pattern accepts, the float pattern accepts. *)
Lemma int_pattern_float_pattern :
  forall s,
    pattern_match int_pattern s = true ->
    pattern_match float_pattern s = true.
Proof.
  intros s H.
  destruct (int_pattern_inv s H) as (body & nl & -> & Hb & Hnl).
  apply float_pattern_intro; [apply int_shape_float_shape |]; assumption.
Qed.

(** ** What [float] accepts *)

Lemma span_app :
  forall p a b,
    all_chars p a = true -> stops_at p b -> span p (a ++ b) = (a, b).
Proof.
  intros p a b. induction a as [| c t IH]; intros Ha Hb.
  - destruct b as [| c t]; simpl in *; [reflexivity | rewrite Hb; reflexivity].
  - simpl in *. apply andb_true_iff in Ha. destruct Ha as [Hc Ht].
    rewrite Hc, (IH Ht Hb). reflexivity.
Qed.

Lemma exponent_shape_stops :
  forall ex,
    exponent_shape ex -> stops_at is_digit ex /\ stops_at (is_char ".") ex.
Proof.
  intros ex [| c sg d Hc _ _ _]; simpl; [split; exact I |].
  destruct (e_cases c Hc) as [-> | ->]; split; reflexivity.
Qed.

Lemma exponent_shape_parses :
  forall ex, exponent_shape ex -> exists z, exponent_of ex = Some z.
Proof.
  intros ex [| c sg d Hc Hsg Hd Hne]; [exists 0; reflexivity |].
  unfold exponent_of. rewrite Hc.
  assert (S : exists neg, take_sign (sg ++ d) = (neg, d)).
  { destruct Hsg as [-> | [-> | ->]];
      [exists false; apply take_sign_digits; assumption
      | exists false; reflexivity | exists true; reflexivity]. }
  destruct S as [neg ->].
  pose proof (span_app is_digit d "" Hd I) as Hs.
  rewrite append_empty_r in Hs. rewrite Hs.
  destruct d as [| x xs]; [contradiction |].
  eexists. reflexivity.
Qed.

Lemma lower_not_special :
  forall c,
    is_digit c || is_char "." c = true ->
    Ascii.eqb (lower c) "i" = false /\ Ascii.eqb (lower c) "n" = false.
Proof. intros c. by_char c. Qed.

Lemma point_or_digit_not_sign :
  forall c,
    is_digit c || is_char "." c = true ->
    is_char "-" c = false /\ is_char "+" c = false.
Proof. intros c. by_char c. Qed.

(** What follows the sign of a decimal shape begins with a digit or a
    point. *)
Lemma mantissa_head :
  forall d1 pt d2 ex,
    all_chars is_digit d1 = true -> point_string pt ->
    all_chars is_digit d2 = true -> (d1 ++ d2)%string <> "" ->
    exists c t,
      (d1 ++ pt ++ d2 ++ ex)%string = String c t /\
      is_digit c || is_char "." c = true.
Proof.
  intros d1 pt d2 ex Hd1 Hpt Hd2 Hne.
  destruct d1 as [| c t].
  - destruct Hpt as [-> | ->].
    + destruct d2 as [| c t]; [contradiction |].
      simpl in Hd2. apply andb_true_iff in Hd2. destruct Hd2 as [Hc _].
      exists c, (t ++ ex)%string. simpl. rewrite Hc. split; reflexivity.
    + exists "."%char, (d2 ++ ex)%string. split; reflexivity.
  - simpl in Hd1. apply andb_true_iff in Hd1. destruct Hd1 as [Hc _].
    exists c, (t ++ pt ++ d2 ++ ex)%string. simpl. rewrite Hc.
    split; reflexivity.
Qed.

(** The unsigned part of a decimal shape is read as the number its
    digits and exponent denote. *)
Lemma float_of_literal_unsigned :
  forall neg d1 pt d2 ex z c t,
    all_chars is_digit d1 = true -> point_string pt ->
    all_chars is_digit d2 = true -> (d1 ++ d2)%string <> "" ->
    exponent_shape ex -> exponent_of ex = Some z ->
    (d1 ++ pt ++ d2 ++ ex)%string = String c t ->
    is_digit c || is_char "." c = true ->
    (let w := lower_string (String c t) in
     if (w =? "inf")%string || (w =? "infinity")%string then Some (FInf neg)
     else if (w =? "nan")%string then Some (FNaN neg)
     else
       let '(ip, s2) := span is_digit (String c t) in
       let '(fp, s3) :=
         match s2 with
         | String c t =>
             if is_char "." c then span is_digit t else (EmptyString, s2)
         | EmptyString => (EmptyString, s2)
         end in
       match (ip ++ fp)%string with
       | EmptyString => None
       | mant =>
           match exponent_of s3 with
           | Some ex =>
               Some (float_of_decimal neg (digits_value 0 mant)
                       (ex - Z.of_nat (String.length fp)))
           | None => None
           end
       end)
    = Some (float_of_decimal neg (digits_value 0 (d1 ++ d2))
              (z - (if (pt =? "")%string then 0
                    else Z.of_nat (String.length d2)))).
Proof.
  intros neg d1 pt d2 ex z c t Hd1 Hpt Hd2 Hne Hex Hz E Hc.
  destruct (lower_not_special c Hc) as [Hi Hn].
  cbv zeta. cbn [lower_string String.eqb]. rewrite Hi, Hn. cbn [andb orb].
  rewrite <- E. clear E Hc Hi Hn c t.
  destruct (exponent_shape_stops ex Hex) as [Sd Sp].
  destruct Hpt as [-> | ->].
  - change (d1 ++ "" ++ d2 ++ ex)%string with (d1 ++ d2 ++ ex)%string.
    rewrite <- append_assoc.
    rewrite (span_app is_digit (d1 ++ d2) ex); [| | assumption].
    + assert (F : match ex with
                  | String c t =>
                      if is_char "." c then span is_digit t else ("", ex)
                  | "" => ("", ex)
                  end = ("", ex)).
      { destruct ex as [| c t]; [reflexivity |].
        change (is_char "." c = false) in Sp. rewrite Sp. reflexivity. }
      rewrite F, append_empty_r, Hz.
      destruct (d1 ++ d2)%string; [contradiction | reflexivity].
    + rewrite all_chars_app, Hd1, Hd2. reflexivity.
  - rewrite (span_app is_digit d1 ("." ++ d2 ++ ex)); [| assumption | reflexivity].
    change ("." ++ d2 ++ ex)%string with (String "." (d2 ++ ex)).
    cbv iota. change (is_char "." ".") with true. cbv iota.
    rewrite (span_app is_digit d2 ex Hd2 Sd), Hz.
    destruct (d1 ++ d2)%string; [contradiction | reflexivity].
Qed.

(** [float] reads a decimal shape as the decimal number it denotes. *)
Lemma float_of_literal_decimal :
  forall sg d1 pt d2 ex z,
    sign_string sg ->
    all_chars is_digit d1 = true -> point_string pt ->
    all_chars is_digit d2 = true -> (d1 ++ d2)%string <> "" ->
    exponent_shape ex -> exponent_of ex = Some z ->
    float_of_literal (sg ++ d1 ++ pt ++ d2 ++ ex)
    = Some (float_of_decimal (sg =? "-")%string (digits_value 0 (d1 ++ d2))
              (z - (if (pt =? "")%string then 0
                    else Z.of_nat (String.length d2)))).
Proof.
  intros sg d1 pt d2 ex z Hsg Hd1 Hpt Hd2 Hne Hex Hz.
  destruct (mantissa_head d1 pt d2 ex Hd1 Hpt Hd2 Hne) as (c & t & E & Hc).
  assert (S : take_sign (sg ++ d1 ++ pt ++ d2 ++ ex)
              = ((sg =? "-")%string, String c t)).
  { rewrite E. destruct Hsg as [-> | [-> | ->]]; try reflexivity.
    destruct (point_or_digit_not_sign c Hc) as [Hm Hp].
    change ("" ++ String c t)%string with (String c t).
    unfold take_sign. rewrite Hm, Hp. reflexivity. }
  unfold float_of_literal. rewrite S.
  apply (float_of_literal_unsigned _ d1 pt d2 ex z c t); assumption.
Qed.

Lemma decimal_shape_parses :
  forall body, decimal_shape body -> exists f, float_of_literal body = Some f.
Proof.
  intros body [sg d1 pt d2 ex Hsg Hd1 Hpt Hd2 Hne Hex].
  destruct (exponent_shape_parses ex Hex) as [z Hz].
  eexists. apply (float_of_literal_decimal sg d1 pt d2 ex z); assumption.
Qed.

Lemma append_not_empty_r :
  forall a b : string, b <> "" -> (a ++ b)%string <> "".
Proof.
  intros a b Hb. destruct a; simpl; [assumption | discriminate].
Qed.

Lemma float_shape_decimal_shape :
  forall body, float_shape body -> decimal_shape body.
Proof.
  intros body [sg d1 pt d2 ex Hsg Hd1 Hpt Hd2 Hne Hex].
  constructor; try assumption. apply append_not_empty_r. exact Hne.
Qed.

Lemma decimal_shape_literal_chars :
  forall body, decimal_shape body -> all_chars literal_char body = true.
Proof.
  intros body [sg d1 pt d2 ex Hsg Hd1 Hpt Hd2 Hne Hex].
  rewrite !all_chars_app.
  rewrite (sign_string_literal sg Hsg).
  rewrite (all_chars_impl _ _ d1 digit_literal_char Hd1).
  rewrite (all_chars_impl _ _ d2 digit_literal_char Hd2).
  assert (P : all_chars literal_char pt = true)
    by (destruct Hpt as [-> | ->]; reflexivity).
  rewrite P. simpl.
  destruct Hex as [| c sg' d Hc Hsg' Hd _]; [reflexivity |].
  simpl. rewrite all_chars_app, (sign_string_literal sg' Hsg').
  rewrite (all_chars_impl _ _ d digit_literal_char Hd).
  unfold literal_char. rewrite Hc. rewrite !orb_true_r. reflexivity.
Qed.

(** A string without underscores passes the underscore filter
    unchanged. *)
Lemma drop_underscores_plain :
  forall s prev,
    all_chars not_underscore s = true ->
    match prev with Some d => is_char "_" d = false | None => True end ->
    drop_underscores prev s = Some s.
Proof.
  induction s as [| c t IH]; intros prev Hs Hp.
  - cbn [drop_underscores]. destruct prev as [d |]; [rewrite Hp |]; reflexivity.
  - simpl in Hs. apply andb_true_iff in Hs. destruct Hs as [Hc Ht].
    unfold not_underscore in Hc. apply negb_true_iff in Hc.
    cbn [drop_underscores]. rewrite Hc.
    rewrite (IH (Some c) Ht Hc).
    destruct prev as [d |]; [rewrite Hp |]; reflexivity.
Qed.

(** On a decimal shape, with or without the final newline, [float] is
    [float_of_literal] on the shape. *)
Lemma float_of_string_decimal :
  forall us body nl,
    decimal_shape body -> newline_part nl ->
    float_of_string us (body ++ nl) = float_of_literal body.
Proof.
  intros us body nl Hb Hnl. unfold float_of_string.
  pose proof (decimal_shape_literal_chars body Hb) as Hl.
  rewrite (strip_body body nl
             (all_chars_impl _ _ body literal_char_not_space Hl) Hnl).
  destruct us; [| reflexivity].
  rewrite (drop_underscores_plain body None
             (all_chars_impl _ _ body literal_char_not_underscore Hl) I).
  reflexivity.
Qed.

Lemma float_of_string_shape :
  forall us body nl,
    decimal_shape body -> newline_part nl ->
    exists f, float_of_string us (body ++ nl) = Some f.
Proof.
  intros us body nl Hb Hnl. rewrite (float_of_string_decimal us body nl Hb Hnl).
  apply decimal_shape_parses. exact Hb.
Qed.

(** Whatever the float pattern accepts, [float] accepts. *)
Lemma float_pattern_sound :
  forall us s,
    pattern_match float_pattern s = true ->
    exists f, float_of_string us s = Some f.
Proof.
  intros us s H.
  destruct (float_pattern_inv s H) as (body & nl & -> & Hb & Hnl).
  apply float_of_string_shape; [apply float_shape_decimal_shape |]; assumption.
Qed.

(** ** The functions on text *)

Lemma int_re_str :
  forall us s,
    int_re us (PyStr s) =
    if pattern_match int_pattern s
    then match int_of_string us s with
         | Some z => Ret (PyInt z)
         | None => Raise ValueError
         end
    else Ret (PyStr s).
Proof.
  intros us s. unfold int_re, int_match, re_match, py_int, as_int. simpl.
  destruct (pattern_match int_pattern s); [| reflexivity].
  destruct (int_of_string us s); reflexivity.
Qed.

Lemma int_try_str :
  forall us s,
    int_try us (PyStr s) =
    match int_of_string us s with
    | Some z => Ret (PyInt z)
    | None => Ret (PyStr s)
    end.
Proof.
  intros us s. unfold int_try, py_int, as_int.
  destruct (int_of_string us s); reflexivity.
Qed.

Lemma float_re_str :
  forall us s,
    float_re us (PyStr s) =
    if pattern_match float_pattern s
    then match float_of_string us s with
         | Some f => Ret (PyFloat f)
         | None => Raise ValueError
         end
    else Ret (PyStr s).
Proof.
  intros us s. unfold float_re, float_match, re_match, py_float, as_float.
  simpl. destruct (pattern_match float_pattern s); [| reflexivity].
  destruct (float_of_string us s); reflexivity.
Qed.

Lemma float_try_str :
  forall us s,
    float_try us (PyStr s) =
    match float_of_string us s with
    | Some f => Ret (PyFloat f)
    | None => Ret (PyStr s)
    end.
Proof.
  intros us s. unfold float_try, py_float, as_float.
  destruct (float_of_string us s); reflexivity.
Qed.

Lemma real_re_str :
  forall us s,
    real_re us (PyStr s) =
    if pattern_match int_pattern s
    then match int_of_string us s with
         | Some z => Ret (PyInt z)
         | None => Raise ValueError
         end
    else if pattern_match float_pattern s
    then match float_of_string us s with
         | Some f => Ret (PyFloat f)
         | None => Raise ValueError
         end
    else Ret (PyStr s).
Proof.
  intros us s.
  unfold real_re, int_match, real_match, re_match, py_int, py_float,
    as_int, as_float. simpl.
  destruct (pattern_match int_pattern s).
  - destruct (int_of_string us s); reflexivity.
  - destruct (pattern_match float_pattern s); [| reflexivity].
    destruct (float_of_string us s); reflexivity.
Qed.

Lemma real_try_str :
  forall us s,
    real_try us (PyStr s) =
    match float_of_string us s with
    | Some a => z <- int_of_float a ;; Ret (PyInt z)
    | None => Ret (PyStr s)
    end.
Proof.
  intros us s. unfold real_try, py_float.
  destruct (float_of_string us s) as [a |]; [| reflexivity]. simpl.
  destruct (int_of_float a) as [b | e]; [| reflexivity]. simpl.
  destruct (int_eq_float b a); reflexivity.
Qed.

Lemma forceint_re_str :
  forall us s,
    forceint_re us (PyStr s) =
    if pattern_match forceint_int_pattern s
    then match int_of_string us s with
         | Some z => Ret (PyInt z)
         | None => Raise ValueError
         end
    else if pattern_match float_pattern s
    then match float_of_string us s with
         | Some a => z <- int_of_float a ;; Ret (PyInt z)
         | None => Raise ValueError
         end
    else Ret (PyStr s).
Proof.
  intros us s.
  unfold forceint_re, forceint_int_match, float_match, re_match, py_int,
    py_float, as_int. simpl.
  destruct (pattern_match forceint_int_pattern s).
  - destruct (int_of_string us s); reflexivity.
  - destruct (pattern_match float_pattern s); [| reflexivity].
    destruct (float_of_string us s) as [a |]; [| reflexivity].
    destruct a; reflexivity.
Qed.

Lemma forceint_try_str :
  forall us s,
    forceint_try us (PyStr s) =
    match int_of_string us s with
    | Some z => Ret (PyInt z)
    | None =>
        match float_of_string us s with
        | Some a =>
            match int_of_float a with
            | Ret z => Ret (PyInt z)
            | Raise ValueError => Ret (PyStr s)
            | Raise e => Raise e
            end
        | None => Ret (PyStr s)
        end
    end.
Proof.
  intros us s. unfold forceint_try, py_int, py_float, as_int.
  destruct (int_of_string us s); [reflexivity |]. simpl.
  destruct (float_of_string us s) as [a |]; [| reflexivity]. simpl.
  destruct (int_of_float a) as [z | []]; reflexivity.
Qed.

Lemma isintlike_re_str :
  forall us s,
    isintlike_re us (PyStr s) =
    if pattern_match int_pattern s then Ret true
    else if pattern_match float_pattern s
    then match float_of_string us s with
         | Some a => Ret (is_integer a)
         | None => Raise ValueError
         end
    else Ret false.
Proof.
  intros us s.
  unfold isintlike_re, int_match, float_match, re_match, py_float. simpl.
  destruct (pattern_match int_pattern s); [reflexivity |].
  destruct (pattern_match float_pattern s); [| reflexivity].
  destruct (float_of_string us s); reflexivity.
Qed.

(** The integer pattern of [forceint_re] accepts no more than the
    integer pattern of the other functions. *)
Lemma forceint_pattern_int_pattern :
  forall s,
    pattern_match forceint_int_pattern s = true ->
    pattern_match int_pattern s = true.
Proof.
  intros s. unfold pattern_match, forceint_int_pattern, int_pattern.
  rewrite !matchk_cat. destruct s as [| c t]; [discriminate |].
  rewrite matchk_cls. intros H.
  change (is_sign c && matchk (Cat (Plus is_digit) Dollar) t (fun _ => true)
          || matchk (Cat (Plus is_digit) Dollar) (String c t) (fun _ => true)
          = true).
  rewrite H. reflexivity.
Qed.

Lemma isint_re_str :
  forall s, isint_re (PyStr s) = Ret (pattern_match int_pattern s).
Proof. reflexivity. Qed.

Lemma isfloat_re_str :
  forall s, isfloat_re (PyStr s) = Ret (pattern_match float_pattern s).
Proof. reflexivity. Qed.

Lemma isreal_re_str :
  forall s, isreal_re (PyStr s) = Ret (pattern_match float_pattern s).
Proof. reflexivity. Qed.

Lemma isint_try_str :
  forall us s,
    isint_try us (PyStr s) =
    Ret (match int_of_string us s with Some _ => true | None => false end).
Proof.
  intros us s. unfold isint_try, py_int.
  destruct (int_of_string us s); reflexivity.
Qed.

Lemma isfloat_try_str :
  forall us s,
    isfloat_try us (PyStr s) =
    Ret (match float_of_string us s with Some _ => true | None => false end).
Proof.
  intros us s. unfold isfloat_try, py_float.
  destruct (float_of_string us s); reflexivity.
Qed.

Lemma isreal_try_str :
  forall us s,
    isreal_try us (PyStr s) =
    Ret (match float_of_string us s with Some _ => true | None => false end).
Proof.
  intros us s. unfold isreal_try, py_float.
  destruct (float_of_string us s); reflexivity.
Qed.

(** ** Integers through [float] *)

Lemma round_half_even_unit : forall x, round_half_even x 1 = x.
Proof.
  intros x. unfold round_half_even.
  rewrite Z.div_1_r, Z.mod_1_r. reflexivity.
Qed.

(** An integer of magnitude at most [2^53] survives the conversion to a
    double and back. *)
Lemma round_ratio_small_int :
  forall neg v,
    0 < v <= 2 ^ 53 ->
    int_of_float (round_ratio neg v 1) = Ret (if neg then - v else v).
Proof.
  intros neg v [Hpos Hle].
  unfold round_ratio.
  change (Z.log2 1) with 0. rewrite Z.sub_0_r.
  pose proof (Z.log2_spec v Hpos) as [Hlo Hhi].
  pose proof (Z.log2_nonneg v) as Hl0.
  assert (Hl53 : Z.log2 v <= 53).
  { change 53 with (Z.log2 (2 ^ 53)). apply Z.log2_le_mono. exact Hle. }
  set (l := Z.log2 v) in *.
  assert (S : scaled_le 1 l v = true).
  { unfold scaled_le. destruct (Z.leb_spec 0 l); [| lia].
    apply Z.leb_le. lia. }
  rewrite S.
  replace (Z.max (l - 52) (-1074)) with (l - 52) by lia.
  destruct (Z.leb_spec 0 (l - 52)) as [He | He].
  - (* l = 52 or l = 53 *)
    assert (C : l = 52 \/ l = 53) by lia.
    destruct C as [El | El]; rewrite El in *.
    + change (52 - 52) with 0. change (1 * 2 ^ 0) with 1.
      rewrite round_half_even_unit.
      change (Z.succ 52) with 53 in Hhi.
      destruct (Z.eqb_spec v (2 ^ 53)) as [E | _]; [lia |].
      cbn [int_of_float Z.ltb Z.compare Z.leb]. rewrite Z.mul_1_r.
      reflexivity.
    + assert (Ev : v = 2 ^ 53) by lia. subst v.
      destruct neg; reflexivity.
  - rewrite round_half_even_unit.
    replace (- (l - 52)) with (52 - l) by lia.
    assert (Hp : 0 < 2 ^ (52 - l)) by (apply Z.pow_pos_nonneg; lia).
    assert (Hm : v * 2 ^ (52 - l) < 2 ^ 53).
    { replace (2 ^ 53) with (2 ^ Z.succ l * 2 ^ (52 - l)).
      - apply Z.mul_lt_mono_pos_r; assumption.
      - rewrite <- Z.pow_add_r by lia. f_equal. lia. }
    destruct (Z.eqb_spec (v * 2 ^ (52 - l)) (2 ^ 53)) as [E | _]; [lia |].
    destruct (Z.ltb_spec 971 (l - 52)) as [F | _]; [lia |].
    cbn [int_of_float].
    destruct (Z.leb_spec 0 (l - 52)) as [G | _]; [lia |].
    replace (- (l - 52)) with (52 - l) by lia.
    rewrite Z.div_mul by lia. reflexivity.
Qed.

Lemma float_of_decimal_small_int :
  forall neg v,
    0 <= v <= 2 ^ 53 ->
    int_of_float (float_of_decimal neg v 0) = Ret (if neg then - v else v).
Proof.
  intros neg v [H0 Hle]. unfold float_of_decimal.
  destruct (Z.eqb_spec v 0) as [-> | Hne].
  - destruct neg; reflexivity.
  - change (0 <=? 0) with true. cbv iota.
    change (10 ^ 0) with 1. rewrite Z.mul_1_r.
    apply round_ratio_small_int. lia.
Qed.

Lemma digits_value_nonneg :
  forall d acc, 0 <= acc -> all_chars is_digit d = true ->
    0 <= digits_value acc d.
Proof.
  induction d as [| c t IH]; intros acc Hacc Hd; simpl in *.
  - exact Hacc.
  - apply andb_true_iff in Hd. destruct Hd as [Hc Ht].
    apply IH; [| assumption].
    unfold is_digit in Hc. apply andb_true_iff in Hc. destruct Hc as [Hc _].
    apply Z.leb_le in Hc. unfold digit_val. lia.
Qed.

(** ** Plain integer literals *)

(** [float] reads a signed digit string as the integer it denotes,
    rounded to a double. *)
Lemma float_of_string_signed_digits :
  forall us sg d,
    sign_string sg -> all_chars is_digit d = true -> d <> "" ->
    float_of_string us (sg ++ d)
    = Some (float_of_decimal (sg =? "-")%string (digits_value 0 d) 0).
Proof.
  intros us sg d Hsg Hd Hne.
  assert (Hne' : (d ++ "")%string <> "") by (rewrite append_empty_r; exact Hne).
  assert (Sh : decimal_shape (sg ++ d ++ "" ++ "" ++ ""))
    by (constructor; try assumption; try reflexivity;
        [left; reflexivity | constructor]).
  pose proof (float_of_string_decimal us _ "" Sh newline_absent) as E.
  rewrite (float_of_literal_decimal sg d "" "" "" 0) in E;
    try assumption; try reflexivity; [| left; reflexivity | constructor].
  simpl in E. rewrite !append_empty_r in E. exact E.
Qed.

(** The integer functions that call [int] return the exact value of
    every signed digit string, whatever its size. *)
Lemma signed_digits_exact :
  forall us sg d,
    sign_string sg -> all_chars is_digit d = true -> d <> "" ->
    let v := PyInt (signed_digits_value sg d) in
    int_re us (PyStr (sg ++ d)) = Ret v /\
    int_try us (PyStr (sg ++ d)) = Ret v /\
    real_re us (PyStr (sg ++ d)) = Ret v /\
    forceint_try us (PyStr (sg ++ d)) = Ret v /\
    isintlike_re us (PyStr (sg ++ d)) = Ret true.
Proof.
  intros us sg d Hsg Hd Hne v.
  pose proof (int_of_string_signed_digits us sg d "" Hsg Hd Hne newline_absent)
    as Hi.
  pose proof (int_pattern_intro (sg ++ d) ""
                (int_shape_intro sg d Hsg Hd Hne) newline_absent) as Hm.
  rewrite append_empty_r in Hi, Hm.
  rewrite int_re_str, int_try_str, real_re_str, forceint_try_str,
    isintlike_re_str, Hi, Hm.
  repeat split; reflexivity.
Qed.

(** [real_try] returns the exact value of a signed digit string as long
    as the value fits the 53 bits of a double's significand. *)
Lemma real_try_exact_up_to_2_53 :
  forall us sg d,
    sign_string sg -> all_chars is_digit d = true -> d <> "" ->
    digits_value 0 d <= 2 ^ 53 ->
    real_try us (PyStr (sg ++ d)) = Ret (PyInt (signed_digits_value sg d)).
Proof.
  intros us sg d Hsg Hd Hne Hle.
  rewrite real_try_str, (float_of_string_signed_digits us sg d Hsg Hd Hne).
  rewrite float_of_decimal_small_int.
  - reflexivity.
  - split; [apply digits_value_nonneg; [lia | assumption] | assumption].
Qed.

(** ** Digits before a final point *)

Lemma last_char_app :
  forall a b, b <> "" -> last_char (a ++ b) = last_char b.
Proof.
  induction a as [| c t IH]; intros b Hb; [reflexivity |].
  change (String c t ++ b)%string with (String c (t ++ b)).
  cbn [last_char]. rewrite (IH b Hb).
  destruct (t ++ b)%string eqn:E; [| reflexivity].
  destruct t; simpl in E; [contradiction | discriminate].
Qed.

Lemma last_char_digits :
  forall d,
    all_chars is_digit d = true -> d <> "" ->
    exists c, last_char d = Some c /\ is_digit c = true.
Proof.
  induction d as [| c t IH]; intros Hd Hne; [contradiction |].
  simpl in Hd. apply andb_true_iff in Hd. destruct Hd as [Hc Ht].
  destruct t as [| c' t'].
  - exists c. split; [reflexivity | assumption].
  - destruct (IH Ht) as (x & Hx & Dx); [discriminate |].
    exists x. split; [exact Hx | exact Dx].
Qed.

(** What the float pattern accepts ends with a digit, final newline
    apart. *)
Lemma float_shape_last :
  forall body,
    float_shape body -> exists c, last_char body = Some c /\ is_digit c = true.
Proof.
  intros body [sg d1 pt d2 ex Hsg Hd1 Hpt Hd2 Hne Hex].
  destruct Hex as [| c sg' d Hc Hsg' Hd Hne'].
  - rewrite append_empty_r.
    rewrite !last_char_app
      by (repeat first [assumption | apply append_not_empty_r]).
    apply last_char_digits; assumption.
  - change (String c (sg' ++ d)) with (String c "" ++ sg' ++ d)%string.
    rewrite !last_char_app
      by (repeat first [assumption | apply append_not_empty_r]).
    apply last_char_digits; assumption.
Qed.

(** Digits followed by a point and nothing else: [float] reads the
    integer, the float pattern does not match.  So [float_try] converts
    the string and [isfloat_try] accepts it, while [float_re] returns it
    unchanged and [isfloat_re] rejects it. *)
Lemma digits_then_point :
  forall us sg d,
    sign_string sg -> all_chars is_digit d = true -> d <> "" ->
    let s := (sg ++ d ++ ".")%string in
    float_try us (PyStr s)
    = Ret (PyFloat (float_of_decimal (sg =? "-")%string (digits_value 0 d) 0)) /\
    isfloat_try us (PyStr s) = Ret true /\
    float_re us (PyStr s) = Ret (PyStr s) /\
    isfloat_re (PyStr s) = Ret false.
Proof.
  intros us sg d Hsg Hd Hne s.
  assert (Hne' : (d ++ "")%string <> "") by (rewrite append_empty_r; exact Hne).
  assert (Sh : decimal_shape (sg ++ d ++ "." ++ "" ++ ""))
    by (constructor; try assumption; try reflexivity;
        [right; reflexivity | constructor]).
  pose proof (float_of_string_decimal us _ "" Sh newline_absent) as E.
  rewrite (float_of_literal_decimal sg d "." "" "" 0) in E;
    try assumption; try reflexivity; [| right; reflexivity | constructor].
  simpl in E. rewrite !append_empty_r in E. fold s in E.
  assert (M : pattern_match float_pattern s = false).
  { destruct (pattern_match float_pattern s) eqn:M; [| reflexivity].
    destruct (float_pattern_inv s M) as (body & nl & Es & Hb & Hnl).
    destruct (float_shape_last body Hb) as (c & Hl & Hc).
    assert (L : last_char s = Some "."%char).
    { unfold s.
      rewrite !last_char_app
        by (repeat first [discriminate | apply append_not_empty_r]).
      reflexivity. }
    rewrite Es in L. destruct Hnl.
    - rewrite append_empty_r, Hl in L. injection L as ->. discriminate.
    - rewrite last_char_app in L by discriminate. discriminate. }
  rewrite float_try_str, isfloat_try_str, float_re_str, isfloat_re_str, E, M.
  repeat split; reflexivity.
Qed.

(** * The claims *)

(** ** Integer literals and the detour through [float] *)

(** C1 (evaluation at the large literal of the timing table).  [int_re],
    [int_try] and [real_re] return the exact value of
    "35892482945872302493947939485729"; [real_try] converts through
    [float] first and returns 35892482945872301180401634770944.  On an
    underscore-grouped literal the two integer functions part as well:
    where [int] accepts "1_000", [int_try] returns 1000 and [int_re]
    returns the string. *)
Theorem C1_large_literal_through_float :
  forall us : bool,
    int_re us (PyStr large_int_literal) = Ret (PyInt large_int_value) /\
    int_try us (PyStr large_int_literal) = Ret (PyInt large_int_value) /\
    real_re us (PyStr large_int_literal) = Ret (PyInt large_int_value) /\
    real_try us (PyStr large_int_literal)
      = Ret (PyInt 35892482945872301180401634770944) /\
    real_try us (PyStr large_int_literal) <> int_re us (PyStr large_int_literal) /\
    int_try true (PyStr "1_000") = Ret (PyInt 1000) /\
    int_re true (PyStr "1_000") = Ret (PyStr "1_000").
Proof.
  intros us.
  assert (E : real_try us (PyStr large_int_literal)
              = Ret (PyInt 35892482945872301180401634770944))
    by (destruct us; vm_compute; reflexivity).
  assert (I : int_re us (PyStr large_int_literal) = Ret (PyInt large_int_value))
    by (destruct us; vm_compute; reflexivity).
  repeat split; try assumption; try (destruct us; vm_compute; reflexivity).
  rewrite E, I. discriminate.
Qed.

(** [real_try] never returns a float for a string: whatever [float]
    produced is replaced by its truncation. *)
Lemma real_try_never_float :
  forall (us : bool) (s : string) (f : pyfloat),
    real_try us (PyStr s) <> Ret (PyFloat f).
Proof.
  intros us s f. unfold real_try, py_float.
  destruct (float_of_string us s) as [a |]; simpl; [| discriminate].
  destruct (int_of_float a) as [b | e]; simpl; [| discriminate].
  destruct (int_eq_float b a); discriminate.
Qed.

(** C2 (evaluation at "1.5").  [float("1.5")] is the double 1.5, which
    is not integer-valued, and [real_re] returns it; [real_try] returns
    the integer 1 for "1.5" as it does for "1.0", because both arms of
    its final conditional are the truncation. *)
Theorem C2_real_try_truncates_1_5 :
  forall us : bool,
    real_try us (PyStr "1.0") = Ret (PyInt 1) /\
    float_of_string us "1.5" = Some f_1_5 /\
    is_integer f_1_5 = false /\
    int_eq_float 1 f_1_5 = false /\
    real_re us (PyStr "1.5") = Ret (PyFloat f_1_5) /\
    real_try us (PyStr "1.5") = Ret (PyInt 1).
Proof.
  intros us. repeat split; destruct us; vm_compute; reflexivity.
Qed.

(** A literal whose double is infinite is accepted by [float] and by the
    float pattern, but [int] of the infinity raises [OverflowError],
    which no handler of [real_try], [forceint_try] or [forceint_re]
    catches. *)
Lemma infinite_float_literal_raises :
  forall us : bool,
    isreal_try us (PyStr "1e400") = Ret true /\
    real_try us (PyStr "1e400") = Raise OverflowError /\
    forceint_try us (PyStr "1e400") = Raise OverflowError /\
    forceint_re us (PyStr "1e400") = Raise OverflowError.
Proof.
  intros us. repeat split; destruct us; vm_compute; reflexivity.
Qed.

(** C3 (evaluation at the unsigned large literal).  [forceint_try]
    truncates "3.9" to 3 and "-3.9" to -3 and returns the exact value of
    the large literal; so does [forceint_re] when the literal carries a
    sign.  The integer pattern of [forceint_re] requires the sign, so
    the unsigned literal takes the float branch and comes back as
    35892482945872301180401634770944. *)
Theorem C3_forceint_re_unsigned_large :
  forall us : bool,
    forceint_try us (PyStr "3.9") = Ret (PyInt 3) /\
    forceint_try us (PyStr "-3.9") = Ret (PyInt (-3)) /\
    forceint_re us (PyStr "3.9") = Ret (PyInt 3) /\
    forceint_re us (PyStr "-3.9") = Ret (PyInt (-3)) /\
    forceint_try us (PyStr large_int_literal) = Ret (PyInt large_int_value) /\
    forceint_re us (PyStr ("+" ++ large_int_literal))
      = Ret (PyInt large_int_value) /\
    pattern_match forceint_int_pattern large_int_literal = false /\
    forceint_re us (PyStr large_int_literal)
      = Ret (PyInt 35892482945872301180401634770944).
Proof.
  intros us. repeat split; destruct us; vm_compute; reflexivity.
Qed.

(** ** Predicates against conversions *)


(** [isintlike_try] compares the integer with [float(x)]: on the large
    literal of the timing table it answers False, [isintlike_re] True. *)
Lemma isintlike_large_literal :
  forall us : bool,
    isintlike_re us (PyStr large_int_literal) = Ret true /\
    isintlike_try us (PyStr large_int_literal) = Ret false.
Proof.
  intros us. split; destruct us; vm_compute; reflexivity.
Qed.









(** ** Malformed text *)

(** C5: a string that neither [int] nor [float] accepts is rejected
    without an exception: every conversion function returns the very
    input. *)
Theorem C5_malformed_returned_unchanged :
  forall (us : bool) (s : string),
    malformed us s ->
    int_try us (PyStr s) = Ret (PyStr s) /\
    float_try us (PyStr s) = Ret (PyStr s) /\
    int_re us (PyStr s) = Ret (PyStr s) /\
    float_re us (PyStr s) = Ret (PyStr s) /\
    real_re us (PyStr s) = Ret (PyStr s) /\
    real_try us (PyStr s) = Ret (PyStr s) /\
    forceint_re us (PyStr s) = Ret (PyStr s) /\
    forceint_try us (PyStr s) = Ret (PyStr s).
Proof.
  intros us s [Hi Hf].
  assert (Mi : pattern_match int_pattern s = false).
  { destruct (pattern_match int_pattern s) eqn:E; [| reflexivity].
    destruct (int_pattern_sound us s E) as [z Hz]. congruence. }
  assert (Mf : pattern_match float_pattern s = false).
  { destruct (pattern_match float_pattern s) eqn:E; [| reflexivity].
    destruct (float_pattern_sound us s E) as [f Hz]. congruence. }
  assert (Mg : pattern_match forceint_int_pattern s = false).
  { destruct (pattern_match forceint_int_pattern s) eqn:E; [| reflexivity].
    rewrite (forceint_pattern_int_pattern s E) in Mi. discriminate. }
  rewrite int_try_str, float_try_str, int_re_str, float_re_str, real_re_str,
    real_try_str, forceint_re_str, forceint_try_str.
  rewrite Hi, Hf, Mi, Mf, Mg. repeat split; reflexivity.
Qed.

Lemma C5_malformed_returned_unchanged_witness :
  (malformed true "not_a_number" /\
   int_try true (PyStr "not_a_number") = Ret (PyStr "not_a_number") /\
   float_try true (PyStr "not_a_number") = Ret (PyStr "not_a_number")) /\
  (malformed true "1__2" /\
   int_try true (PyStr "1__2") = Ret (PyStr "1__2") /\
   float_try true (PyStr "1__2") = Ret (PyStr "1__2")) /\
  (malformed false "1e" /\
   int_try false (PyStr "1e") = Ret (PyStr "1e") /\
   float_try false (PyStr "1e") = Ret (PyStr "1e")).
Proof.
  assert (M1 : malformed true "not_a_number") by (split; reflexivity).
  assert (M2 : malformed true "1__2") by (split; reflexivity).
  assert (M3 : malformed false "1e") by (split; reflexivity).
  destruct (C5_malformed_returned_unchanged true "not_a_number" M1)
    as (A1 & B1 & _).
  destruct (C5_malformed_returned_unchanged true "1__2" M2) as (A2 & B2 & _).
  destruct (C5_malformed_returned_unchanged false "1e" M3) as (A3 & B3 & _).
  repeat split; assumption.
Defined.

(** ** Unsupported and already-numeric input *)




(** C7: an integer-typed input is returned as it is by the integer
    conversions ([int_re], [int_try]) and by the forced-integer
    conversions ([forceint_re], [forceint_try]), and [isint_re],
    [isint_try] accept it; in particular [to_int(42) == 42].  No text is
    scanned on the way: the result is the same for either literal
    syntax [us], and a pattern applied to an integer raises [TypeError]
    without matching anything. *)
Theorem C7_integer_input_passthrough :
  forall (us : bool) (n : Z),
    int_re us (PyInt n) = Ret (PyInt n) /\
    int_try us (PyInt n) = Ret (PyInt n) /\
    forceint_re us (PyInt n) = Ret (PyInt n) /\
    forceint_try us (PyInt n) = Ret (PyInt n) /\
    isint_re (PyInt n) = Ret true /\
    isint_try us (PyInt n) = Ret true /\
    int_try us (PyInt 42) = Ret (PyInt 42) /\
    (forall r : regex, re_match r (PyInt n) = Raise TypeError).
Proof.
  intros us n. repeat split; reflexivity.
Qed.

(** ** The decimal point *)

(** C8 (evaluation at "1.").  A lone point and a lone sign are rejected
    by both implementations.  "1." is accepted by [float], hence by
    [float_try] and [isfloat_try]; the pattern of [float_re] and
    [isfloat_re] demands a digit after the point and rejects it. *)
Theorem C8_digits_then_point :
  forall us : bool,
    isfloat_re (PyStr ".") = Ret false /\
    isfloat_try us (PyStr ".") = Ret false /\
    isfloat_re (PyStr "+") = Ret false /\
    isfloat_try us (PyStr "+") = Ret false /\
    isfloat_re (PyStr ".5") = Ret true /\
    isfloat_try us (PyStr ".5") = Ret true /\
    float_try us (PyStr "1.") = Ret (PyFloat f_1_0) /\
    isfloat_try us (PyStr "1.") = Ret true /\
    float_re us (PyStr "1.") = Ret (PyStr "1.") /\
    isfloat_re (PyStr "1.") = Ret false.
Proof.
  intros us. repeat split; destruct us; vm_compute; reflexivity.
Qed.

(** ** Static type of numeric input *)

(** C10 (evaluation at an infinite float and at an integer beyond the
    float range).  [isint_re] and [isfloat_re] decide by the type alone
    on every numeric input, and [isint_try], [isfloat_try] accept every
    input of their own type; [is_int(3.0)] and [is_float(3)] are False.
    But [isint_try] first calls [int(x)], which raises [OverflowError]
    on an infinity, and [isfloat_try] first calls [float(x)], which
    raises [OverflowError] on 2^1024: neither returns False there. *)
Theorem C10_type_discrimination :
  forall us : bool,
    (forall n : Z,
        isint_re (PyInt n) = Ret true /\ isfloat_re (PyInt n) = Ret false /\
        isint_try us (PyInt n) = Ret true) /\
    (forall f : pyfloat,
        isfloat_re (PyFloat f) = Ret true /\ isint_re (PyFloat f) = Ret false /\
        isfloat_try us (PyFloat f) = Ret true) /\
    isint_try us (PyFloat f_3_0) = Ret false /\
    isfloat_try us (PyInt 3) = Ret false /\
    isint_try us (PyFloat (FInf false)) = Raise OverflowError /\
    isfloat_try us (PyInt (2 ^ 1024)) = Raise OverflowError.
Proof.
  intros us. repeat split; vm_compute; reflexivity.
Qed.

(** * Further properties of the notebook functions *)

(** ** The languages of the patterns *)

(** X1: the integer pattern [[-+]?\d+$] accepts exactly the strings made
    of an optional sign, one or more digits and an optional final
    newline. *)
Theorem X1_int_pattern_language :
  forall s : string,
    pattern_match int_pattern s = true <->
    exists body nl,
      s = (body ++ nl)%string /\ int_shape body /\ newline_part nl.
Proof.
  intros s. split.
  - apply int_pattern_inv.
  - intros (body & nl & -> & Hb & Hnl). apply int_pattern_intro; assumption.
Qed.

(** X2: the float pattern [[-+]?\d*\.?\d+(?:[eE][-+]?\d+)?$] accepts
    exactly the strings made of an optional sign, digits, an optional
    point, one or more digits, an optional exponent (marker, optional
    sign, one or more digits) and an optional final newline. *)
Theorem X2_float_pattern_language :
  forall s : string,
    pattern_match float_pattern s = true <->
    exists body nl,
      s = (body ++ nl)%string /\ float_shape body /\ newline_part nl.
Proof.
  intros s. split.
  - apply float_pattern_inv.
  - intros (body & nl & -> & Hb & Hnl). apply float_pattern_intro; assumption.
Qed.

Lemma sign_not_digit : forall c, is_sign c = true -> is_digit c = false.
Proof. intros c. by_char c. Qed.

(** The integer pattern of [forceint_re] is the common integer pattern
    restricted to the strings that begin with a sign. *)
Lemma forceint_pattern_signed :
  forall s : string,
    pattern_match forceint_int_pattern s
    = pattern_match int_pattern s && starts_with_sign s.
Proof.
  intros s. unfold pattern_match, forceint_int_pattern, int_pattern.
  rewrite !matchk_cat. destruct s as [| c t]; [reflexivity |].
  rewrite matchk_cls.
  change (matchk (OptCls is_sign) (String c t)
            (fun u => matchk (Cat (Plus is_digit) Dollar) u (fun _ => true)))
    with (is_sign c && matchk (Cat (Plus is_digit) Dollar) t (fun _ => true)
          || matchk (Cat (Plus is_digit) Dollar) (String c t) (fun _ => true)).
  cbn [starts_with_sign].
  destruct (is_sign c) eqn:Hs.
  - rewrite (matchk_cat _ _ (String c t)).
    change (matchk (Plus is_digit) (String c t)
              (fun u => matchk Dollar u (fun _ => true)))
      with (is_digit c
            && star_k is_digit t (fun u => matchk Dollar u (fun _ => true))).
    rewrite (sign_not_digit c Hs).
    cbn [andb orb]. rewrite orb_false_r, andb_true_r. reflexivity.
  - cbn [andb orb]. rewrite andb_false_r. reflexivity.
Qed.

Lemma starts_with_sign_digits :
  forall d, all_chars is_digit d = true -> starts_with_sign d = false.
Proof.
  intros d H. destruct d as [| c t]; [reflexivity |].
  simpl in H. apply andb_true_iff in H. destruct H as [Hc _].
  apply digit_not_sign. exact Hc.
Qed.

(** [forceint_re] converts a digit string that carries a sign with
    [int]. *)
Lemma forceint_re_signed :
  forall us sg d,
    sign_string sg -> sg <> "" ->
    all_chars is_digit d = true -> d <> "" ->
    forceint_re us (PyStr (sg ++ d)) = Ret (PyInt (signed_digits_value sg d)).
Proof.
  intros us sg d Hsg Hsn Hd Hne.
  pose proof (int_of_string_signed_digits us sg d "" Hsg Hd Hne
                newline_absent) as Hi.
  pose proof (int_pattern_intro (sg ++ d) ""
                (int_shape_intro sg d Hsg Hd Hne) newline_absent) as Hm.
  rewrite append_empty_r in Hi, Hm.
  assert (Hst : starts_with_sign (sg ++ d) = true)
    by (destruct Hsg as [-> | [-> | ->]]; [contradiction | |]; reflexivity).
  rewrite forceint_re_str, forceint_pattern_signed, Hm, Hst, Hi.
  reflexivity.
Qed.

(** [forceint_re] converts a digit string without sign with
    [int(float(x))]. *)
Lemma forceint_re_unsigned :
  forall us d,
    all_chars is_digit d = true -> d <> "" ->
    forceint_re us (PyStr d)
    = (z <- int_of_float (float_of_decimal false (digits_value 0 d) 0) ;;
       Ret (PyInt z)).
Proof.
  intros us d Hd Hne.
  assert (S0 : sign_string "") by (left; reflexivity).
  pose proof (float_pattern_intro ("" ++ d) ""
                (int_shape_float_shape _ (int_shape_intro "" d S0 Hd Hne))
                newline_absent) as Hm.
  pose proof (float_of_string_signed_digits us "" d S0 Hd Hne) as Hf.
  change ("" ++ d)%string with d in Hm, Hf. rewrite append_empty_r in Hm.
  rewrite forceint_re_str, forceint_pattern_signed,
    (starts_with_sign_digits d Hd), andb_false_r, Hm, Hf.
  reflexivity.
Qed.

(** X3: the sign decides the route a digit string takes through
    [forceint_re].  With a sign the string is converted by [int], exactly
    at any size.  Without one the integer pattern does not match and the
    string is converted by [int(float(x))]: the result is the double
    nearest to the value, truncated, which is the value itself as long as
    it does not exceed 2^53. *)
Theorem X3_forceint_re_sign_decides_route :
  forall (us : bool) (d : string),
    all_chars is_digit d = true -> d <> "" ->
    forceint_re us (PyStr ("+" ++ d)) = Ret (PyInt (digits_value 0 d)) /\
    forceint_re us (PyStr ("-" ++ d)) = Ret (PyInt (- digits_value 0 d)) /\
    forceint_re us (PyStr d)
    = (z <- int_of_float (float_of_decimal false (digits_value 0 d) 0) ;;
       Ret (PyInt z)) /\
    (digits_value 0 d <= 2 ^ 53 ->
     forceint_re us (PyStr d) = Ret (PyInt (digits_value 0 d))).
Proof.
  intros us d Hd Hne.
  split; [apply (forceint_re_signed us "+" d); try assumption;
          [right; left; reflexivity | discriminate] |].
  split; [apply (forceint_re_signed us "-" d); try assumption;
          [right; right; reflexivity | discriminate] |].
  split; [apply forceint_re_unsigned; assumption |].
  intros Hle.
  rewrite (forceint_re_unsigned us d Hd Hne), float_of_decimal_small_int.
  - reflexivity.
  - split; [apply digits_value_nonneg; [lia | assumption] | assumption].
Qed.

Lemma X3_forceint_re_sign_decides_route_witness :
  forceint_re true (PyStr "+9007199254740993") = Ret (PyInt 9007199254740993) /\
  forceint_re true (PyStr "-9007199254740993")
  = Ret (PyInt (- 9007199254740993)) /\
  forceint_re true (PyStr "9007199254740993") = Ret (PyInt 9007199254740992) /\
  forceint_re true (PyStr "9007199254740992") = Ret (PyInt 9007199254740992).
Proof.
  destruct (X3_forceint_re_sign_decides_route true "9007199254740993"
              eq_refl ltac:(discriminate)) as (Hp & Hm & Hu & _).
  destruct (X3_forceint_re_sign_decides_route true "9007199254740992"
              eq_refl ltac:(discriminate)) as (_ & _ & _ & Hs).
  split; [exact Hp |]. split; [exact Hm |]. split.
  - rewrite Hu. vm_compute. reflexivity.
  - apply Hs. vm_compute. discriminate.
Defined.

(** ** Text never makes the pattern-guarded functions fail *)

Lemma round_ratio_not_nan :
  forall neg p q s, round_ratio neg p q <> FNaN s.
Proof.
  intros neg p q s. unfold round_ratio.
  set (e := Z.max _ _). set (m := if 0 <=? e then _ else _).
  destruct (m =? 2 ^ 53); [destruct (971 <? e + 1) | destruct (971 <? e)];
    discriminate.
Qed.

Lemma float_of_decimal_not_nan :
  forall neg d ex s, float_of_decimal neg d ex <> FNaN s.
Proof.
  intros neg d ex s. unfold float_of_decimal.
  destruct (d =? 0); [discriminate |].
  destruct (0 <=? ex); apply round_ratio_not_nan.
Qed.

(** What the float pattern accepts, [float] reads as a decimal number. *)
Lemma float_pattern_decimal :
  forall us s,
    pattern_match float_pattern s = true ->
    exists neg d ex, float_of_string us s = Some (float_of_decimal neg d ex).
Proof.
  intros us s H.
  destruct (float_pattern_inv s H) as (body & nl & -> & Hb & Hnl).
  rewrite (float_of_string_decimal us body nl
             (float_shape_decimal_shape body Hb) Hnl).
  destruct Hb as [sg d1 pt d2 ex Hsg Hd1 Hpt Hd2 Hne Hex].
  destruct (exponent_shape_parses ex Hex) as [z Hz].
  rewrite (float_of_literal_decimal sg d1 pt d2 ex z); try assumption.
  - eexists _, _, _. reflexivity.
  - apply append_not_empty_r. exact Hne.
Qed.

(** X4: on text the functions guarded by a pattern call [int] and [float]
    only on strings these accept.  So [int_re], [float_re] and [real_re]
    never raise on a string: each returns a number of its kind or the
    string it was given, and [isintlike_re] always answers.
    [forceint_re] can raise on a string, but only [OverflowError], and
    only when the string is a float literal whose double is infinite. *)
Theorem X4_pattern_guard_protects_conversion :
  forall (us : bool) (s : string),
    (is_PyInt (int_re us (PyStr s)) \/ int_re us (PyStr s) = Ret (PyStr s)) /\
    (is_PyFloat (float_re us (PyStr s)) \/
     float_re us (PyStr s) = Ret (PyStr s)) /\
    (is_number (real_re us (PyStr s)) \/ real_re us (PyStr s) = Ret (PyStr s)) /\
    (exists b, isintlike_re us (PyStr s) = Ret b) /\
    (forall e, forceint_re us (PyStr s) = Raise e ->
               e = OverflowError /\
               exists neg, float_of_string us s = Some (FInf neg)).
Proof.
  intros us s.
  rewrite int_re_str, float_re_str, real_re_str, isintlike_re_str,
    forceint_re_str, forceint_pattern_signed.
  pose proof (int_pattern_sound us s) as Si.
  pose proof (float_pattern_decimal us s) as Sf.
  destruct (pattern_match int_pattern s) eqn:Mi;
    [destruct (Si eq_refl) as [z Hz]; rewrite Hz |];
    (destruct (pattern_match float_pattern s) eqn:Mf;
     [destruct (Sf eq_refl) as (sn & dd & de & Hf); rewrite Hf;
      pose proof (float_of_decimal_not_nan sn dd de) as Hnan;
      destruct (float_of_decimal sn dd de) as [neg m ex | neg | neg] eqn:Ef;
      [| | exfalso; apply (Hnan neg); reflexivity] |]);
    (split; [| split; [| split; [| split]]]);
    try (left; eexists; reflexivity);
    try (left; left; eexists; reflexivity);
    try (left; right; eexists; reflexivity);
    try (right; reflexivity);
    try (eexists; reflexivity);
    intros e He; destruct (starts_with_sign s); cbn [andb] in He;
    try discriminate;
    cbn in He; injection He as <-;
    (split; [reflexivity | exists neg; reflexivity]).
Qed.

(** ** Pattern variants against try/except variants *)

(** X5: on text the pattern-based functions are the stricter ones.
    Whatever [int_re] or [float_re] converts, [int_try] or [float_try]
    converts to the same value, and whatever [isint_re], [isfloat_re] or
    [isreal_re] accepts, the try/except predicate accepts. *)
Theorem X5_pattern_variants_are_stricter :
  forall (us : bool) (s : string),
    (forall z, int_re us (PyStr s) = Ret (PyInt z) ->
               int_try us (PyStr s) = Ret (PyInt z)) /\
    (forall f, float_re us (PyStr s) = Ret (PyFloat f) ->
               float_try us (PyStr s) = Ret (PyFloat f)) /\
    (isint_re (PyStr s) = Ret true -> isint_try us (PyStr s) = Ret true) /\
    (isfloat_re (PyStr s) = Ret true -> isfloat_try us (PyStr s) = Ret true) /\
    (isreal_re (PyStr s) = Ret true -> isreal_try us (PyStr s) = Ret true).
Proof.
  intros us s.
  rewrite int_re_str, int_try_str, float_re_str, float_try_str,
    isint_re_str, isfloat_re_str, isreal_re_str, isint_try_str,
    isfloat_try_str, isreal_try_str.
  pose proof (int_pattern_sound us s) as Si.
  pose proof (float_pattern_sound us s) as Sf.
  split; [| split; [| split; [| split]]].
  - intros z H. destruct (pattern_match int_pattern s); [| discriminate].
    destruct (int_of_string us s); [exact H | discriminate].
  - intros f H. destruct (pattern_match float_pattern s); [| discriminate].
    destruct (float_of_string us s); [exact H | discriminate].
  - intros H. injection H as H. destruct (Si H) as [z ->]. reflexivity.
  - intros H. injection H as H. destruct (Sf H) as [f ->]. reflexivity.
  - intros H. injection H as H. destruct (Sf H) as [f ->]. reflexivity.
Qed.

Lemma X5_pattern_variants_are_stricter_witness :
  int_re true (PyStr "-41053") = Ret (PyInt (-41053)) /\
  int_try true (PyStr "-41053") = Ret (PyInt (-41053)) /\
  isreal_re (PyStr "-41053") = Ret true /\
  isreal_try true (PyStr "-41053") = Ret true.
Proof.
  destruct (X5_pattern_variants_are_stricter true "-41053")
    as (Hi & _ & _ & _ & Hr).
  split; [reflexivity |]. split; [apply Hi; reflexivity |].
  split; [reflexivity | apply Hr; reflexivity].
Defined.

(** X6: [isreal_re] is the disjunction of [isint_re] and [isfloat_re] on
    every input: it answers True exactly when one of the two does.  On
    text this rests on the float pattern accepting whatever the integer
    pattern accepts; on a number exactly one of the two is True; on any
    other input all three raise. *)
Theorem X6_isreal_re_is_int_or_float :
  forall x : pyobj,
    isreal_re x = Ret true <->
    isint_re x = Ret true \/ isfloat_re x = Ret true.
Proof.
  intros [z | f | s | | l | b | cls to_int to_float eq_int].
  - split; [intros _; left; reflexivity | reflexivity].
  - split; [intros _; right; reflexivity | reflexivity].
  - rewrite isreal_re_str, isint_re_str, isfloat_re_str.
    split; [intros H; right; exact H | intros [H | H]; [| exact H]].
    injection H as H. rewrite (int_pattern_float_pattern s H). reflexivity.
  - split; [intros H | intros [H | H]]; discriminate.
  - split; [intros H | intros [H | H]]; discriminate.
  - split; [intros H | intros [H | H]]; discriminate.
  - split; [intros H | intros [H | H]]; discriminate.
Qed.

(** ** Integer-valued floats *)

(** For a finite float the test [int(x) == x] and [x.is_integer()] are
    one test. *)
Lemma truncation_equal_iff_integer :
  forall neg m e z,
    int_of_float (FFinite neg m e) = Ret z ->
    int_eq_float z (FFinite neg m e) = is_integer (FFinite neg m e).
Proof.
  intros neg m e z H. cbn [int_of_float] in H. injection H as <-.
  cbn [int_eq_float is_integer].
  destruct (Z.leb_spec 0 e) as [He | He].
  - apply Z.eqb_eq. destruct neg; ring.
  - assert (Hp : 0 < 2 ^ (- e)) by (apply Z.pow_pos_nonneg; lia).
    pose proof (Z.div_mod m (2 ^ (- e)) ltac:(lia)) as Hdm.
    destruct (Z.eqb_spec (m mod 2 ^ (- e)) 0) as [Hz | Hz];
      [apply Z.eqb_eq | apply Z.eqb_neq]; destruct neg; nia.
Qed.

(** X7: on a float input both [isintlike_re] and [isintlike_try] answer
    [x.is_integer()] when the float is finite.  They part on NaN, where
    [isintlike_try] answers False and [isintlike_re] raises [ValueError],
    and both raise [OverflowError] on an infinity. *)
Theorem X7_isintlike_on_floats :
  forall (us : bool) (neg : bool) (m e : Z),
    isintlike_re us (PyFloat (FFinite neg m e))
    = Ret (is_integer (FFinite neg m e)) /\
    isintlike_try us (PyFloat (FFinite neg m e))
    = Ret (is_integer (FFinite neg m e)) /\
    isintlike_try us (PyFloat (FNaN neg)) = Ret false /\
    isintlike_re us (PyFloat (FNaN neg)) = Raise ValueError /\
    isintlike_try us (PyFloat (FInf neg)) = Raise OverflowError /\
    isintlike_re us (PyFloat (FInf neg)) = Raise OverflowError.
Proof.
  intros us neg m e.
  pose proof (truncation_equal_iff_integer neg m e _ eq_refl) as H.
  repeat split; try reflexivity.
  - unfold isintlike_re, int_match, re_match, py_int.
    cbn [bind try_except exn_eqb int_of_float int_eq_obj]. rewrite H.
    reflexivity.
  - unfold isintlike_try, py_int, py_float.
    cbn [bind try_except_else int_of_float]. rewrite H. reflexivity.
Qed.

(** ** The 53 bits of the detour through [float] *)

(** The double of an integer of magnitude at most [2^53] denotes that
    integer. *)
Lemma round_ratio_small_form :
  forall neg v,
    0 < v <= 2 ^ 53 ->
    exists m e,
      round_ratio neg v 1 = FFinite neg m e /\
      (if 0 <=? e then v = m * 2 ^ e else m = v * 2 ^ (- e)).
Proof.
  intros neg v [Hpos Hle].
  unfold round_ratio.
  change (Z.log2 1) with 0. rewrite Z.sub_0_r.
  pose proof (Z.log2_spec v Hpos) as [Hlo Hhi].
  pose proof (Z.log2_nonneg v) as Hl0.
  assert (Hl53 : Z.log2 v <= 53).
  { change 53 with (Z.log2 (2 ^ 53)). apply Z.log2_le_mono. exact Hle. }
  set (l := Z.log2 v) in *.
  assert (S : scaled_le 1 l v = true).
  { unfold scaled_le. destruct (Z.leb_spec 0 l); [| lia].
    apply Z.leb_le. lia. }
  rewrite S.
  replace (Z.max (l - 52) (-1074)) with (l - 52) by lia.
  destruct (Z.leb_spec 0 (l - 52)) as [He | He].
  - assert (C : l = 52 \/ l = 53) by lia.
    destruct C as [El | El]; rewrite El in *.
    + change (52 - 52) with 0. change (1 * 2 ^ 0) with 1.
      rewrite round_half_even_unit.
      change (Z.succ 52) with 53 in Hhi.
      destruct (Z.eqb_spec v (2 ^ 53)) as [E | _]; [lia |].
      exists v, 0. split; [reflexivity |]. cbn. lia.
    + assert (Ev : v = 2 ^ 53) by lia. subst v.
      exists (2 ^ 52), 1. split; reflexivity.
  - rewrite round_half_even_unit.
    replace (- (l - 52)) with (52 - l) by lia.
    assert (Hp : 0 < 2 ^ (52 - l)) by (apply Z.pow_pos_nonneg; lia).
    assert (Hm : v * 2 ^ (52 - l) < 2 ^ 53).
    { replace (2 ^ 53) with (2 ^ Z.succ l * 2 ^ (52 - l)).
      - apply Z.mul_lt_mono_pos_r; assumption.
      - rewrite <- Z.pow_add_r by lia. f_equal. lia. }
    destruct (Z.eqb_spec (v * 2 ^ (52 - l)) (2 ^ 53)) as [E | _]; [lia |].
    destruct (Z.ltb_spec 971 (l - 52)) as [F | _]; [lia |].
    exists (v * 2 ^ (52 - l)), (l - 52). split; [reflexivity |].
    destruct (Z.leb_spec 0 (l - 52)) as [G | _]; [lia |].
    replace (- (l - 52)) with (52 - l) by lia. reflexivity.
Qed.

Lemma small_form_equal :
  forall (neg : bool) (v m e : Z),
    (if 0 <=? e then v = m * 2 ^ e else m = v * 2 ^ (- e)) ->
    int_eq_float (if neg then - v else v) (FFinite neg m e) = true.
Proof.
  intros neg v m e H. cbn [int_eq_float].
  destruct (0 <=? e); subst; apply Z.eqb_eq; destruct neg; ring.
Qed.

(** [float(n)] for an integer of magnitude at most [2^53] is a finite
    double that truncates to [n] and compares equal to [n]. *)
Lemma float_of_int_small :
  forall n,
    Z.abs n <= 2 ^ 53 ->
    exists f,
      float_of_int n = Ret f /\
      int_of_float f = Ret n /\ int_eq_float n f = true.
Proof.
  intros n Hn. unfold float_of_int.
  destruct (Z.eqb_spec n 0) as [-> | Hne].
  - exists (fzero false). repeat split; reflexivity.
  - assert (Ha : 0 < Z.abs n <= 2 ^ 53) by lia.
    destruct (round_ratio_small_form (n <? 0) (Z.abs n) Ha)
      as (m & e & E & F).
    pose proof (round_ratio_small_int (n <? 0) (Z.abs n) Ha) as I.
    pose proof (small_form_equal (n <? 0) (Z.abs n) m e F) as Q.
    rewrite E in I |- *. exists (FFinite (n <? 0) m e).
    assert (S : (if n <? 0 then - Z.abs n else Z.abs n) = n)
      by (destruct (Z.ltb_spec n 0); lia).
    rewrite S in I, Q. repeat split; assumption.
Qed.

Lemma float_of_decimal_small_equal :
  forall (neg : bool) (v : Z),
    0 <= v <= 2 ^ 53 ->
    int_eq_float (if neg then - v else v) (float_of_decimal neg v 0) = true.
Proof.
  intros neg v [H0 Hle]. unfold float_of_decimal.
  destruct (Z.eqb_spec v 0) as [-> | Hne].
  - destruct neg; reflexivity.
  - change (0 <=? 0) with true. cbv iota.
    change (10 ^ 0) with 1. rewrite Z.mul_1_r.
    assert (Hv : 0 < v <= 2 ^ 53) by lia.
    destruct (round_ratio_small_form neg v Hv) as (m & e & E & F).
    rewrite E. apply small_form_equal. exact F.
Qed.

(** X8: an integer input of magnitude at most 2^53 survives the detour
    through [float]: [real_try] returns it unchanged and [isintlike_try]
    answers True.  The bound is the precision of a double: 2^53 + 1 comes
    back from [real_try] as 2^53 and is refused by [isintlike_try], while
    [real_re] and [isintlike_re] do not depend on the size. *)
Theorem X8_integer_input_through_float :
  forall (us : bool) (n : Z),
    Z.abs n <= 2 ^ 53 ->
    real_try us (PyInt n) = Ret (PyInt n) /\
    isintlike_try us (PyInt n) = Ret true /\
    real_try us (PyInt (2 ^ 53 + 1)) = Ret (PyInt (2 ^ 53)) /\
    isintlike_try us (PyInt (2 ^ 53 + 1)) = Ret false /\
    (forall k : Z, real_re us (PyInt k) = Ret (PyInt k) /\
                   isintlike_re us (PyInt k) = Ret true).
Proof.
  intros us n Hn.
  destruct (float_of_int_small n Hn) as (f & Hf & Hi & He).
  split; [| split; [| split; [| split]]].
  - unfold real_try, py_float. rewrite Hf. cbn [try_except_else].
    rewrite Hi. cbn [bind]. rewrite He. reflexivity.
  - unfold isintlike_try, py_int, py_float. cbn [try_except_else].
    rewrite Hf. cbn [bind]. rewrite He. reflexivity.
  - vm_compute. reflexivity.
  - vm_compute. reflexivity.
  - intros k. split; [reflexivity |].
    unfold isintlike_re, int_match, re_match, py_int.
    cbn [bind try_except exn_eqb int_eq_obj]. rewrite Z.eqb_refl. reflexivity.
Qed.

Lemma X8_integer_input_through_float_witness :
  real_try true (PyInt (-41053)) = Ret (PyInt (-41053)) /\
  isintlike_try true (PyInt (-41053)) = Ret true.
Proof.
  destruct (X8_integer_input_through_float true (-41053))
    as (Hr & Hl & _); [vm_compute; discriminate |].
  split; [exact Hr | exact Hl].
Defined.

Lemma isintlike_try_str :
  forall us s,
    isintlike_try us (PyStr s) =
    match int_of_string us s with
    | Some a =>
        match float_of_string us s with
        | Some f => Ret (int_eq_float a f)
        | None => Raise ValueError
        end
    | None =>
        match float_of_string us s with
        | Some f => Ret (is_integer f)
        | None => Ret false
        end
    end.
Proof.
  intros us s. unfold isintlike_try, py_int, py_float.
  destruct (int_of_string us s); destruct (float_of_string us s); reflexivity.
Qed.

(** X9: on an integer literal (optional sign, one or more digits) whose
    magnitude does not exceed 2^53 the implementations cannot be told
    apart: the six conversions that return integers return the exact
    value, and the four integer predicates answer True. *)
Theorem X9_integer_literals_agree_up_to_2_53 :
  forall (us : bool) (sg d : string),
    sign_string sg -> all_chars is_digit d = true -> d <> "" ->
    digits_value 0 d <= 2 ^ 53 ->
    let s := PyStr (sg ++ d) in
    let v := Ret (PyInt (signed_digits_value sg d)) in
    int_re us s = v /\ int_try us s = v /\
    real_re us s = v /\ real_try us s = v /\
    forceint_re us s = v /\ forceint_try us s = v /\
    isint_re s = Ret true /\ isint_try us s = Ret true /\
    isintlike_re us s = Ret true /\ isintlike_try us s = Ret true.
Proof.
  intros us sg d Hsg Hd Hne Hle s v.
  destruct (signed_digits_exact us sg d Hsg Hd Hne) as (A & B & C & D & E).
  pose proof (int_of_string_signed_digits us sg d "" Hsg Hd Hne newline_absent)
    as Hi.
  pose proof (int_pattern_intro (sg ++ d) ""
                (int_shape_intro sg d Hsg Hd Hne) newline_absent) as Hm.
  rewrite append_empty_r in Hi, Hm.
  assert (Hv : 0 <= digits_value 0 d <= 2 ^ 53)
    by (split; [apply digits_value_nonneg; [lia | assumption] | assumption]).
  split; [exact A |]. split; [exact B |]. split; [exact C |].
  split; [apply real_try_exact_up_to_2_53; assumption |].
  split.
  { destruct Hsg as [-> | Hs].
    - change ("" ++ d)%string with d in *. unfold s, v.
      rewrite (forceint_re_unsigned us d Hd Hne),
        (float_of_decimal_small_int false _ Hv).
      reflexivity.
    - apply forceint_re_signed; try assumption.
      + right. exact Hs.
      + destruct Hs as [-> | ->]; discriminate. }
  split; [exact D |].
  split; [unfold s; rewrite isint_re_str, Hm; reflexivity |].
  split; [unfold s; rewrite isint_try_str, Hi; reflexivity |].
  split; [exact E |].
  unfold s.
  rewrite isintlike_try_str, Hi,
    (float_of_string_signed_digits us sg d Hsg Hd Hne).
  unfold signed_digits_value.
  rewrite (float_of_decimal_small_equal (sg =? "-")%string _ Hv).
  reflexivity.
Qed.

Lemma X9_integer_literals_agree_up_to_2_53_witness :
  real_try true (PyStr "-41053") = Ret (PyInt (-41053)) /\
  forceint_re true (PyStr "-41053") = Ret (PyInt (-41053)) /\
  isintlike_try true (PyStr "-41053") = Ret true.
Proof.
  assert (S : sign_string "-") by (right; right; reflexivity).
  assert (N : "41053" <> "") by discriminate.
  assert (L : digits_value 0 "41053" <= 2 ^ 53) by (vm_compute; discriminate).
  destruct (X9_integer_literals_agree_up_to_2_53 true "-" "41053"
              S eq_refl N L) as (_ & _ & _ & R & F & _ & _ & _ & _ & T).
  split; [exact R |]. split; [exact F | exact T].
Defined.

(** ** Numbers given to the integer conversions *)

(** X10: a finite float given to an integer conversion is truncated
    toward zero.  For the float of sign [neg] and magnitude [m * 2^e],
    [int_re], [int_try], [forceint_re], [forceint_try] and [real_try] all
    return the integer of the same sign whose magnitude [q] is the
    integer part of the magnitude: [q = m * 2^e] when [0 <= e], and
    [q * 2^(-e) <= m < (q + 1) * 2^(-e)] otherwise. *)
Theorem X10_float_input_truncated_toward_zero :
  forall (us : bool) (neg : bool) (m e : Z),
    0 <= m ->
    exists q : Z,
      0 <= q /\
      (if 0 <=? e then q = m * 2 ^ e
       else q * 2 ^ (- e) <= m < (q + 1) * 2 ^ (- e)) /\
      let x := PyFloat (FFinite neg m e) in
      let v := Ret (PyInt (if neg then - q else q)) in
      int_re us x = v /\ int_try us x = v /\
      forceint_re us x = v /\ forceint_try us x = v /\ real_try us x = v.
Proof.
  intros us neg m e Hm.
  exists (if 0 <=? e then m * 2 ^ e else m / 2 ^ (- e)).
  assert (R : real_try us (PyFloat (FFinite neg m e))
              = Ret (PyInt (if neg
                            then - (if 0 <=? e then m * 2 ^ e
                                    else m / 2 ^ (- e))
                            else if 0 <=? e then m * 2 ^ e
                                 else m / 2 ^ (- e)))).
  { unfold real_try, py_float.
    cbn [try_except_else int_of_float bind].
    match goal with |- (if ?c then _ else _) = _ => destruct c end;
      reflexivity. }
  destruct (Z.leb_spec 0 e) as [He | He].
  - split; [apply Z.mul_nonneg_nonneg; [assumption | apply Z.pow_nonneg; lia] |].
    split; [reflexivity |].
    cbv zeta. repeat split; try reflexivity.
    + unfold int_re, int_match, re_match, py_int, as_int.
      cbn. destruct (Z.leb_spec 0 e); [reflexivity | lia].
    + unfold int_try, py_int, as_int.
      cbn. destruct (Z.leb_spec 0 e); [reflexivity | lia].
    + unfold forceint_re, forceint_int_match, re_match, py_int, as_int.
      cbn. destruct (Z.leb_spec 0 e); [reflexivity | lia].
    + unfold forceint_try, py_int, as_int.
      cbn. destruct (Z.leb_spec 0 e); [reflexivity | lia].
    + rewrite R. destruct (Z.leb_spec 0 e); [reflexivity | lia].
  - assert (Hp : 0 < 2 ^ (- e)) by (apply Z.pow_pos_nonneg; lia).
    split; [apply Z.div_pos; assumption |].
    split.
    { split.
      - rewrite Z.mul_comm. apply Z.mul_div_le. exact Hp.
      - rewrite Z.mul_comm. apply Z.mul_succ_div_gt. exact Hp. }
    cbv zeta. repeat split.
    + unfold int_re, int_match, re_match, py_int, as_int.
      cbn. destruct (Z.leb_spec 0 e); [lia | reflexivity].
    + unfold int_try, py_int, as_int.
      cbn. destruct (Z.leb_spec 0 e); [lia | reflexivity].
    + unfold forceint_re, forceint_int_match, re_match, py_int, as_int.
      cbn. destruct (Z.leb_spec 0 e); [lia | reflexivity].
    + unfold forceint_try, py_int, as_int.
      cbn. destruct (Z.leb_spec 0 e); [lia | reflexivity].
    + rewrite R. destruct (Z.leb_spec 0 e); [lia | reflexivity].
Qed.

Lemma X10_float_input_truncated_toward_zero_witness :
  0 <= 8782019273372467 /\
  int_try true (PyFloat (FFinite true 8782019273372467 (-51)))
  = Ret (PyInt (-3)) /\
  real_try true (PyFloat (FFinite true 8782019273372467 (-51)))
  = Ret (PyInt (-3)).
Proof.
  assert (H : 0 <= 8782019273372467) by (vm_compute; discriminate).
  destruct (X10_float_input_truncated_toward_zero
              true true 8782019273372467 (-51) H)
    as (q & Hq & Hb & _ & Ht & _ & _ & Hr).
  change (0 <=? -51) with false in Hb. cbv iota in Hb.
  change (2 ^ (- -51)) with 2251799813685248 in Hb.
  assert (E : q = 3) by lia. subst q.
  split; [exact H |]. split; [exact Ht | exact Hr].
Defined.

(** A pattern applied to anything but a string raises [TypeError]. *)
Lemma re_match_off_text :
  forall (r : regex) (x : pyobj),
    is_str x = false -> re_match r x = Raise TypeError.
Proof.
  intros r x H. destruct x; try reflexivity. discriminate H.
Qed.

Lemma try_except_other :
  forall (A : Type) (body : res A) (e : exn) (handler : res A),
    body <> Raise e -> try_except body e handler = body.
Proof.
  intros A body e handler H. destruct body as [a | e']; [reflexivity |].
  cbn [try_except].
  destruct e, e'; cbn [exn_eqb]; try reflexivity;
    try (exfalso; apply H; reflexivity).
  destruct (String.eqb_spec name0 name) as [-> | _]; [| reflexivity].
  exfalso. apply H. reflexivity.
Qed.

Lemma as_int_raise :
  forall (r : res Z) (e : exn), as_int r = Raise e <-> r = Raise e.
Proof.
  intros r e. destruct r; cbn; split; intros H; try discriminate;
    injection H as ->; reflexivity.
Qed.

Lemma as_float_raise :
  forall (r : res pyfloat) (e : exn), as_float r = Raise e <-> r = Raise e.
Proof.
  intros r e. destruct r; cbn; split; intros H; try discriminate;
    injection H as ->; reflexivity.
Qed.

(** X11: on an input that is not text no pattern applies, and the
    siblings part exactly where the built-in raises [ValueError]:
    [forceint_re] is [int_re] throughout; where [float(x)] does not
    raise [ValueError], [float_re] is [float_try], and where [int(x)]
    does not, [int_re] is [int_try] and [forceint_re] is
    [forceint_try]; where the built-in raises [ValueError] the
    pattern-based function lets it out and the try/except one returns
    the input.  On an [int], a [float], [None] or a list, [float(x)]
    never raises [ValueError] and [int(x)] raises it on a NaN only,
    which [forceint_try] returns as well; on [bytes] and on instances of
    other classes both built-ins can raise it. *)
Theorem X11_siblings_agree_off_text :
  forall (us : bool) (x : pyobj),
    is_str x = false ->
    forceint_re us x = int_re us x /\
    (py_float us x <> Raise ValueError -> float_re us x = float_try us x) /\
    (py_int us x <> Raise ValueError ->
     int_re us x = int_try us x /\ forceint_re us x = forceint_try us x) /\
    (py_float us x = Raise ValueError ->
     float_re us x = Raise ValueError /\ float_try us x = Ret x) /\
    (py_int us x = Raise ValueError ->
     int_re us x = Raise ValueError /\ forceint_re us x = Raise ValueError /\
     int_try us x = Ret x) /\
    (bytes_or_instance x = false ->
     py_float us x <> Raise ValueError /\
     (is_nan x = false -> py_int us x <> Raise ValueError) /\
     (is_nan x = true ->
      py_int us x = Raise ValueError /\ forceint_try us x = Ret x)) /\
    py_int us (PyBytes "1.5") = Raise ValueError /\
    py_float us (PyBytes "1.5.") = Raise ValueError.
Proof.
  intros us x Hx.
  pose proof (fun r => re_match_off_text r x Hx) as M.
  assert (Ri : int_re us x = as_int (py_int us x)).
  { unfold int_re, int_match. rewrite M. reflexivity. }
  assert (Rf : float_re us x = as_float (py_float us x)).
  { unfold float_re, float_match. rewrite M. reflexivity. }
  assert (Rg : forceint_re us x = as_int (py_int us x)).
  { unfold forceint_re, forceint_int_match. rewrite M. reflexivity. }
  split; [rewrite Rg, Ri; reflexivity |].
  split; [| split; [| split; [| split; [| split]]]];
    [| | | | | split; destruct us; vm_compute; reflexivity].
  - intros H. rewrite Rf. unfold float_try. symmetry.
    apply try_except_other. intros E. apply as_float_raise in E. auto.
  - intros H. rewrite Ri, Rg. unfold int_try, forceint_try.
    assert (N : as_int (py_int us x) <> Raise ValueError).
    { intros E. apply as_int_raise in E. auto. }
    split; symmetry; apply try_except_other; exact N.
  - intros H. rewrite Rf. unfold float_try. rewrite H. split; reflexivity.
  - intros H. rewrite Ri, Rg. unfold int_try. rewrite H.
    repeat split; reflexivity.
  - intros Hb.
    destruct x as [z | [neg m e | neg | neg] | s | | l | b | c i f q];
      try discriminate Hb; try discriminate Hx;
      (split; [| split]);
      try (intros H; discriminate H);
      try (intros _; discriminate);
      try (intros _; split; reflexivity);
      try discriminate.
    cbn [py_float]. unfold float_of_int. destruct (z =? 0); [discriminate |].
    destruct (round_ratio (z <? 0) (Z.abs z) 1); discriminate.
Qed.

Lemma X11_siblings_agree_off_text_witness :
  is_str (PyFloat (FNaN false)) = false /\
  int_re true (PyFloat (FNaN false)) = Raise ValueError /\
  int_try true (PyFloat (FNaN false)) = Ret (PyFloat (FNaN false)) /\
  forceint_try true (PyFloat (FNaN false)) = Ret (PyFloat (FNaN false)) /\
  is_str (PyBytes "1.5") = false /\
  int_re true (PyBytes "1.5") = Raise ValueError /\
  int_try true (PyBytes "1.5") = Ret (PyBytes "1.5") /\
  float_re true (PyBytes "1.5") = float_try true (PyBytes "1.5") /\
  float_re true (PyBytes "1.5.") = Raise ValueError /\
  float_try true (PyBytes "1.5.") = Ret (PyBytes "1.5.") /\
  int_re true (PyFloat f_3_0) = int_try true (PyFloat f_3_0).
Proof.
  destruct (X11_siblings_agree_off_text true (PyFloat (FNaN false)) eq_refl)
    as (_ & _ & _ & _ & Hn & Hp & _).
  destruct (Hn eq_refl) as (A & _ & B).
  destruct (Hp eq_refl) as (_ & _ & Hq).
  destruct (Hq eq_refl) as (_ & Q).
  destruct (X11_siblings_agree_off_text true (PyBytes "1.5") eq_refl)
    as (_ & Hbf & _ & _ & Hb & _).
  destruct (Hb eq_refl) as (C & _ & D).
  assert (F : py_float true (PyBytes "1.5") <> Raise ValueError)
    by (vm_compute; discriminate).
  destruct (X11_siblings_agree_off_text true (PyBytes "1.5.") eq_refl)
    as (_ & _ & _ & Hv & _).
  destruct (Hv eq_refl) as (V1 & V2).
  destruct (X11_siblings_agree_off_text true (PyFloat f_3_0) eq_refl)
    as (_ & _ & Hf & _).
  assert (I : py_int true (PyFloat f_3_0) <> Raise ValueError)
    by (vm_compute; discriminate).
  destruct (Hf I) as (E & _).
  split; [reflexivity |]. split; [exact A |]. split; [exact B |].
  split; [exact Q |].
  split; [reflexivity |]. split; [exact C |]. split; [exact D |].
  split; [exact (Hbf F) |]. split; [exact V1 |]. split; [exact V2 |].
  exact E.
Defined.

(** ** What the patterns let through *)





(** ** [int_try] against [int_re], blanks apart *)

Lemma lstrip_head :
  forall s,
    lstrip_blanks s = "" \/ exists c t, lstrip_blanks s = String c t /\ is_space c = false.
Proof.
  induction s as [| c t IH]; [left; reflexivity |].
  simpl. destruct (is_space c) eqn:E; [exact IH |].
  right. exists c, t. split; [reflexivity | exact E].
Qed.

Lemma rstrip_idem : forall s, rstrip_blanks (rstrip_blanks s) = rstrip_blanks s.
Proof.
  induction s as [| c t IH]; [reflexivity |].
  cbn [rstrip_blanks]. destruct (rstrip_blanks t) as [| d u] eqn:E.
  - destruct (is_space c) eqn:Hc; [reflexivity |].
    cbn [rstrip_blanks]. rewrite Hc. reflexivity.
  - cbn [rstrip_blanks]. cbn [rstrip_blanks] in IH. rewrite IH. reflexivity.
Qed.

Lemma strip_idem : forall s, strip_blanks (strip_blanks s) = strip_blanks s.
Proof.
  intros s. unfold strip_blanks.
  destruct (lstrip_head s) as [E | (c & t & E & Hc)]; rewrite E.
  - reflexivity.
  - assert (N : not_space c = true) by (unfold not_space; rewrite Hc; reflexivity).
    rewrite (rstrip_cons_not_space c t N).
    cbn [lstrip_blanks]. rewrite Hc.
    rewrite <- (rstrip_cons_not_space c t N). apply rstrip_idem.
Qed.

Lemma all_chars_lstrip :
  forall p s, all_chars p s = true -> all_chars p (lstrip_blanks s) = true.
Proof.
  intros p s. induction s as [| c t IH]; intros H; [reflexivity |].
  simpl in H. apply andb_true_iff in H. destruct H as [Hc Ht].
  simpl. destruct (is_space c); [apply IH; exact Ht |].
  simpl. rewrite Hc, Ht. reflexivity.
Qed.

Lemma all_chars_rstrip :
  forall p s, all_chars p s = true -> all_chars p (rstrip_blanks s) = true.
Proof.
  intros p s. induction s as [| c t IH]; intros H; [reflexivity |].
  simpl in H. apply andb_true_iff in H. destruct H as [Hc Ht].
  cbn [rstrip_blanks]. specialize (IH Ht). destruct (rstrip_blanks t) as [| d u].
  - destruct (is_space c); [reflexivity |]. simpl. rewrite Hc. reflexivity.
  - cbn [all_chars]. cbn [all_chars] in IH. rewrite Hc, IH. reflexivity.
Qed.

Lemma take_sign_inv :
  forall t neg r,
    take_sign t = (neg, r) ->
    exists sg,
      sign_string sg /\ t = (sg ++ r)%string /\ neg = (sg =? "-")%string.
Proof.
  intros t neg r H. destruct t as [| c u].
  - injection H as <- <-. exists "". repeat split. left; reflexivity.
  - unfold take_sign in H.
    destruct (is_char "-" c) eqn:Hm.
    + injection H as <- <-. exists "-". unfold is_char in Hm.
      apply Ascii.eqb_eq in Hm. subst c.
      repeat split. right; right; reflexivity.
    + destruct (is_char "+" c) eqn:Hp.
      * injection H as <- <-. exists "+". unfold is_char in Hp.
        apply Ascii.eqb_eq in Hp. subst c.
        repeat split. right; left; reflexivity.
      * injection H as <- <-. exists "". repeat split. left; reflexivity.
Qed.

(** Without underscores in the text, the digit scan of [int] accepts
    exactly the non-empty digit strings. *)
Lemma int_digits_plain_inv :
  forall us s acc prev z,
    all_chars not_underscore s = true ->
    int_digits us acc prev s = Some z ->
    all_chars is_digit s = true /\ (s <> "" \/ prev = true) /\
    z = digits_value acc s.
Proof.
  intros us s. induction s as [| c t IH]; intros acc prev z Hu H.
  - simpl in H. destruct prev; [| discriminate]. injection H as <-.
    repeat split. right; reflexivity.
  - simpl in Hu. apply andb_true_iff in Hu. destruct Hu as [Hc Ht].
    unfold not_underscore in Hc. apply negb_true_iff in Hc.
    cbn [int_digits] in H. destruct (is_digit c) eqn:Hd.
    + destruct (IH _ _ _ Ht H) as (A & _ & B).
      cbn [all_chars digits_value]. rewrite Hd, A.
      repeat split; [left; discriminate | exact B].
    + rewrite Hc, andb_false_r in H. discriminate.
Qed.

(** Blanks apart, [int_try] and [int_re] convert the same text: for a
    string without underscores, [int] accepts it exactly when the
    pattern matches what is left once the blanks of [int] are gone. *)
Lemma int_try_int_re_strip_blanks :
  forall (us : bool) (s : string) (z : Z),
    all_chars not_underscore s = true ->
    (int_try us (PyStr s) = Ret (PyInt z) <->
     int_re us (PyStr (strip_blanks s)) = Ret (PyInt z)).
Proof.
  intros us s z Hu.
  assert (E : int_of_string us (strip_blanks s) = int_of_string us s)
    by (unfold int_of_string; rewrite strip_idem; reflexivity).
  rewrite int_try_str, int_re_str, E.
  split; intros H.
  - destruct (int_of_string us s) as [y |] eqn:Hi; [| discriminate].
    assert (M : pattern_match int_pattern (strip_blanks s) = true).
    { unfold int_of_string in Hi.
      destruct (take_sign (strip_blanks s)) as [neg r] eqn:Ts.
      destruct (int_digits us 0 false r) as [y0 |] eqn:Hd; [| discriminate].
      destruct (take_sign_inv _ _ _ Ts) as (sg & Hsg & Es & _).
      assert (Ur : all_chars not_underscore r = true).
      { pose proof (all_chars_rstrip _ _ (all_chars_lstrip _ _ Hu)) as Us.
        fold (strip_blanks s) in Us. rewrite Es, all_chars_app in Us.
        apply andb_true_iff in Us. apply Us. }
      destruct (int_digits_plain_inv us r 0 false y0 Ur Hd) as (Dr & Nr & _).
      destruct Nr as [Nr | Nr]; [| discriminate].
      rewrite Es, <- (append_empty_r (sg ++ r)).
      apply int_pattern_intro; constructor; assumption. }
    rewrite M. exact H.
  - destruct (pattern_match int_pattern (strip_blanks s)); [| discriminate].
    destruct (int_of_string us s); [exact H | discriminate].
Qed.

(** Without separators [s.strip()] removes what [int] skips. *)
Lemma str_lstrip_no_separator :
  forall s,
    all_chars not_separator s = true -> str_lstrip s = lstrip_blanks s.
Proof.
  induction s as [| c t IH]; intros H; [reflexivity |].
  cbn [all_chars] in H. apply andb_true_iff in H. destruct H as [Hc Ht].
  cbn [str_lstrip lstrip_blanks]. unfold is_whitespace.
  unfold not_separator in Hc. apply negb_true_iff in Hc. rewrite Hc.
  rewrite orb_false_r, (IH Ht). reflexivity.
Qed.

Lemma str_rstrip_no_separator :
  forall s,
    all_chars not_separator s = true -> str_rstrip s = rstrip_blanks s.
Proof.
  induction s as [| c t IH]; intros H; [reflexivity |].
  cbn [all_chars] in H. apply andb_true_iff in H. destruct H as [Hc Ht].
  cbn [str_rstrip rstrip_blanks]. unfold is_whitespace.
  unfold not_separator in Hc. apply negb_true_iff in Hc. rewrite Hc.
  rewrite orb_false_r, (IH Ht). reflexivity.
Qed.

Lemma str_strip_no_separator :
  forall s,
    all_chars not_separator s = true -> str_strip s = strip_blanks s.
Proof.
  intros s H. unfold str_strip, strip_blanks.
  rewrite (str_lstrip_no_separator s H).
  apply str_rstrip_no_separator. apply all_chars_lstrip. exact H.
Qed.

(** X13: whitespace apart, [int_try] and [int_re] convert the same
    text.  For a string without underscores and without the separators
    U+001C to U+001F, [int_try(s)] is the integer [z] exactly when
    [int_re(s.strip())] is.  The separators are left out because
    [str.strip] removes them and [int] does not skip them: for a
    separator followed by "12", [int_re(s.strip())] is 12 and
    [int_try(s)] is [s].  (With underscores, where [int] accepts them,
    only [int_try] converts.) *)
Theorem X13_int_try_is_int_re_after_strip :
  forall (us : bool) (s : string) (z : Z),
    (all_chars not_underscore s = true ->
     all_chars not_separator s = true ->
     (int_try us (PyStr s) = Ret (PyInt z) <->
      int_re us (PyStr (str_strip s)) = Ret (PyInt z))) /\
    int_re us (PyStr (str_strip separator_12)) = Ret (PyInt 12) /\
    int_try us (PyStr separator_12) = Ret (PyStr separator_12).
Proof.
  intros us s z. split.
  - intros Hu Hs. rewrite (str_strip_no_separator s Hs).
    apply int_try_int_re_strip_blanks. exact Hu.
  - split; destruct us; vm_compute; reflexivity.
Qed.

Lemma X13_int_try_is_int_re_after_strip_witness :
  all_chars not_underscore "  -41053 " = true /\
  all_chars not_separator "  -41053 " = true /\
  int_try true (PyStr "  -41053 ") = Ret (PyInt (-41053)) /\
  int_re true (PyStr (str_strip "  -41053 ")) = Ret (PyInt (-41053)) /\
  int_re true (PyStr "  -41053 ") = Ret (PyStr "  -41053 ").
Proof.
  destruct (X13_int_try_is_int_re_after_strip true "  -41053 " (-41053))
    as [H _].
  destruct (H eq_refl eq_refl) as [H1 _].
  split; [reflexivity |]. split; [reflexivity |]. split; [reflexivity |].
  split; [apply H1; reflexivity | reflexivity].
Defined.

(** * Properties of the result tables *)

(** ** Cells and rows *)

Lemma split_on_free :
  forall c x, free_of c x = true -> split_on c x = [x].
Proof.
  intros c x. induction x as [| a t IH]; intros H; [reflexivity |].
  unfold free_of in H. cbn [all_chars] in H.
  apply andb_true_iff in H. destruct H as [Ha Ht].
  apply negb_true_iff in Ha. cbn [split_on]. rewrite Ha.
  rewrite (IH Ht). reflexivity.
Qed.

Lemma split_on_app_sep :
  forall c x t,
    free_of c x = true ->
    split_on c (x ++ String c t) = x :: split_on c t.
Proof.
  intros c x t. induction x as [| a u IH]; intros H.
  - cbn. rewrite Ascii.eqb_refl. reflexivity.
  - unfold free_of in H. cbn [all_chars] in H.
    apply andb_true_iff in H. destruct H as [Ha Hu].
    apply negb_true_iff in Ha.
    change (String a u ++ String c t)%string with (String a (u ++ String c t)).
    cbn [split_on]. rewrite Ha, (IH Hu). reflexivity.
Qed.

(** Joining with a separator and splitting on it gives the parts back,
    when there is at least one part and no part holds the separator. *)
Lemma split_on_join :
  forall c xs,
    xs <> [] ->
    Forall (fun x => free_of c x = true) xs ->
    split_on c (join (String c "") xs) = xs.
Proof.
  intros c xs. induction xs as [| x rest IH]; intros Hne Hf; [contradiction |].
  inversion Hf as [| ? ? Hx Hrest]; subst.
  destruct rest as [| y rest'].
  - apply split_on_free. exact Hx.
  - change (join (String c "") (x :: y :: rest'))
      with (x ++ String c (join (String c "") (y :: rest')))%string.
    rewrite (split_on_app_sep c x _ Hx), IH; [reflexivity | discriminate |].
    exact Hrest.
Qed.

(** X14: [add_row] appends exactly one row and leaves the rows before
    it as they are: the table becomes [self ++ [row]].  The row can be
    read back: when there is at least one cell and no cell holds a bar,
    splitting the row on bars gives the cells in order.  Without cells
    the row is the empty string, which reads back as one empty cell:
    [add_row()] and [add_row('')] append the same row. *)
Theorem X14_add_row_reads_back :
  forall (self : Table) (elements : list string),
    add_row self [] = add_row self [""] /\
    exists row,
      add_row self elements = (self ++ [row])%list /\
      (elements = [] -> row = "") /\
      (elements <> [] ->
       Forall (fun x => free_of "|" x = true) elements ->
       split_on "|" row = elements).
Proof.
  intros self elements. split; [reflexivity |].
  exists (join "|" elements). split; [reflexivity |]. split.
  - intros ->. reflexivity.
  - intros Hne Hf. apply split_on_join; assumption.
Qed.

Lemma X14_add_row_reads_back_witness :
  exists row,
    add_row ["a|b"] ["Int"; "1.0"; "**0.5**"] = ["a|b"; row] /\
    split_on "|" row = ["Int"; "1.0"; "**0.5**"].
Proof.
  destruct (X14_add_row_reads_back ["a|b"] ["Int"; "1.0"; "**0.5**"])
    as (_ & row & E & _ & H).
  exists row. split; [exact E |].
  apply H; [discriminate | repeat constructor].
Defined.

Lemma separators_from :
  forall n i,
    map (fun '(i, sep) =>
           (sep ++ (if negb (Nat.eqb i 0) then ":" else ""))%string)
      (enumerate_from (S i) (repeat "---" n))
    = repeat "---:" n.
Proof.
  induction n as [| n IH]; intros i; [reflexivity |].
  cbn [repeat enumerate_from map]. rewrite IH. reflexivity.
Qed.

Lemma Forall_repeat :
  forall (P : string -> Prop) x n, P x -> Forall P (repeat x n).
Proof.
  intros P x n H. induction n; simpl; constructor; assumption.
Qed.

(** X15: [add_header] appends two rows, the labels and the alignment
    row.  For at least one label and labels free of bars, the label row
    reads back as the labels and the alignment row as ["---"] followed
    by ["---:"] for every further column: both rows have as many cells
    as there are labels, the first column keeps the default alignment
    and all others are right-aligned. *)
Theorem X15_add_header_rows :
  forall (self : Table) (elements : list string),
    elements <> [] ->
    Forall (fun x => free_of "|" x = true) elements ->
    exists header alignment,
      add_header self elements = (self ++ [header; alignment])%list /\
      split_on "|" header = elements /\
      split_on "|" alignment
      = "---" :: repeat "---:" (List.length elements - 1) /\
      List.length (split_on "|" alignment) = List.length elements.
Proof.
  intros self elements Hne Hf.
  destruct elements as [| x rest]; [contradiction |].
  exists (join "|" (x :: rest)),
    (join "|" ("---" :: repeat "---:" (List.length rest))).
  assert (A : split_on "|" (join "|" ("---" :: repeat "---:" (List.length rest)))
              = "---" :: repeat "---:" (List.length rest)).
  { apply split_on_join; [discriminate |].
    constructor; [reflexivity |]. apply Forall_repeat. reflexivity. }
  split.
  - unfold add_header, add_row. cbn [List.length repeat enumerate_from map].
    rewrite separators_from, <- app_assoc. reflexivity.
  - split; [apply split_on_join; assumption |].
    replace (List.length (x :: rest) - 1)%nat with (List.length rest)
      by (cbn [List.length]; lia).
    split; [exact A |].
    rewrite A. cbn [List.length]. rewrite repeat_length. reflexivity.
Qed.

Lemma X15_add_header_rows_witness :
  add_header [] ["Input type"; "builtin (ms)"; "fastnumbers (ms)"]
  = ["Input type|builtin (ms)|fastnumbers (ms)"; "---|---:|---:"].
Proof.
  destruct (X15_add_header_rows []
              ["Input type"; "builtin (ms)"; "fastnumbers (ms)"])
    as (h & a & E & _); [discriminate | repeat constructor |].
  rewrite E. vm_compute in E. injection E as <- <-. reflexivity.
Defined.

(** X16: the text of a table has one line per row: for at least one row
    and rows free of newlines, splitting [str(table)] on newlines gives
    the rows back.  The text does not tell an empty table from a table
    whose only row is empty: both print as the empty string. *)
Theorem X16_table_text_lines :
  forall self : Table,
    Table_str [] = "" /\ Table_str [""] = "" /\
    (self <> [] ->
     Forall (fun row => free_of newline row = true) self ->
     split_on newline (Table_str self) = self).
Proof.
  intros self. split; [reflexivity |]. split; [reflexivity |].
  intros Hne Hf. apply split_on_join; assumption.
Qed.

Lemma X16_table_text_lines_witness :
  split_on newline (Table_str ["Input type|builtin (ms)"; "---|---:"])
  = ["Input type|builtin (ms)"; "---|---:"].
Proof.
  destruct (X16_table_text_lines ["Input type|builtin (ms)"; "---|---:"])
    as (_ & _ & H).
  apply H; [discriminate | repeat constructor].
Defined.

(** * Properties of the timer *)

Section TimingProperties.

Variable timing : Type.
Variable to_ms : timing -> timing.
Variable lt : timing -> timing -> bool.
Variable fmt : timing -> string.

(** ** The least measurement *)




End TimingProperties.


(** ** The rows of the table *)

Lemma set_item_length :
  forall row k v, List.length (set_item row k v) = List.length row.
Proof.
  intros row. induction row as [| x rest IH]; intros k v; [reflexivity |].
  destruct k; cbn [set_item List.length]; [reflexivity |].
  rewrite IH. reflexivity.
Qed.

Lemma set_item_Forall :
  forall (P : string -> Prop) row k v,
    Forall P row -> P v -> Forall P (set_item row k v).
Proof.
  intros P row. induction row as [| x rest IH]; intros k v Hr Hv.
  - constructor.
  - inversion Hr; subst. destruct k; cbn [set_item]; constructor; auto.
Qed.

Lemma nth_Forall :
  forall (P : string -> Prop) row k d,
    Forall P row -> P d -> P (nth k row d).
Proof.
  intros P row. induction row as [| x rest IH]; intros k d Hr Hd.
  - destruct k; exact Hd.
  - inversion Hr; subst. destruct k; cbn [nth]; auto.
Qed.

Lemma bold_free_of_bar :
  forall x, free_of "|" x = true -> free_of "|" (bold x) = true.
Proof.
  intros x H. unfold bold, free_of in *.
  rewrite !all_chars_app, H. reflexivity.
Qed.

Lemma add_header_cons :
  forall x labels,
    add_header [] (x :: labels)
    = [join "|" (x :: labels);
       join "|" ("---" :: repeat "---:" (List.length labels))].
Proof.
  intros x labels. unfold add_header, add_row.
  cbn [List.length repeat enumerate_from map].
  rewrite separators_from. reflexivity.
Qed.

Section TimerRuns.

Variable M : measure.
Variable build : string -> pyobj -> string -> res unit.
Variable run : nat -> nat -> string -> pyobj -> string -> nat -> res (seconds M).

(** *** Fewer than two runs *)

(** [mean] of no measurement does not return: [math.fsum] raises, or the
    division by [len(x)] does. *)
Lemma mean_nil : exists e, mean M [] = Raise e.
Proof.
  unfold mean. destruct (fsum M []) as [s | e]; cbn [bind].
  - exists ZeroDivisionError. reflexivity.
  - exists e. reflexivity.
Qed.

(** [stddev] of one measurement does not return: when nothing raises
    before, the division by [len(x) - 1] does. *)
Lemma stddev_one : forall t, exists e, stddev M [t] = Raise e.
Proof.
  intros t. unfold stddev.
  destruct (mean M [t]) as [m | e]; cbn [bind]; [| exists e; reflexivity].
  destruct (map_res (fun v => square M (minus M v m)) [t]) as [sq | e];
    cbn [bind]; [| exists e; reflexivity].
  destruct (fsum M sq) as [s | e]; cbn [bind]; [| exists e; reflexivity].
  exists ZeroDivisionError. reflexivity.
Qed.

(** With [repeat] 0 or 1 [_timeit] never returns a measurement. *)
Lemma timeit_few_runs :
  forall i j func value setup repeat_,
    (repeat_ <= 1)%nat ->
    exists e, _timeit M build run i j func value setup repeat_ = Raise e.
Proof.
  intros i j func value setup repeat_ H. unfold _timeit, timeit_repeat.
  destruct (build func value setup) as [[] | e]; cbn [bind];
    [| exists e; reflexivity].
  destruct repeat_ as [| [| n]]; [| | lia].
  - cbn [runs bind]. destruct mean_nil as [e He]. rewrite He.
    exists e. reflexivity.
  - cbn [runs].
    destruct (run i j func value setup 0%nat) as [t | e]; cbn [bind];
      [| exists e; reflexivity].
    destruct (mean M [t]) as [m | e]; cbn [bind]; [| exists e; reflexivity].
    destruct (stddev_one t) as [e He]. rewrite He. exists e. reflexivity.
Qed.

(** *** The loops *)

(** The inner loop lets out no [ValueError] and no [TypeError], and what
    it lets out comes from [_timeit]. *)
Lemma time_row_raise :
  forall functions repeat_ i j value e,
    time_row M build run functions repeat_ i j value = Raise e ->
    e <> ValueError /\ e <> TypeError /\
    exists n func setup label,
      nth_error functions n = Some (func, setup, label) /\
      _timeit M build run i (j + n) func value setup repeat_ = Raise e.
Proof.
  intros functions repeat_ i.
  induction functions as [| [[func setup] label] rest IH]; intros j value e H.
  - discriminate.
  - cbn [time_row] in H.
    destruct (_timeit M build run i j func value setup repeat_)
      as [t | e0] eqn:E.
    + destruct (time_row M build run rest repeat_ i (S j) value)
        as [o | e1] eqn:E2; cbn [bind] in H; [discriminate |].
      injection H as <-.
      destruct (IH _ _ _ E2) as (H1 & H2 & n & f & s & l & Hn & Ht).
      split; [exact H1 |]. split; [exact H2 |]. exists (S n), f, s, l.
      split; [exact Hn |]. rewrite Nat.add_succ_r. exact Ht.
    + assert (R : e0 = e /\ e <> ValueError /\ e <> TypeError).
      { destruct e0; try discriminate; injection H as <-;
          repeat split; discriminate. }
      destruct R as (-> & H1 & H2).
      split; [exact H1 |]. split; [exact H2 |].
      exists 0%nat, func, setup, label.
      split; [reflexivity |]. rewrite Nat.add_0_r. exact E.
Qed.

Lemma time_row_length :
  forall functions repeat_ i j value row,
    time_row M build run functions repeat_ i j value = Ret (Some row) ->
    List.length row = List.length functions.
Proof.
  intros functions repeat_ i.
  induction functions as [| [[func setup] label] rest IH];
    intros j value row H.
  - injection H as <-. reflexivity.
  - cbn [time_row] in H.
    destruct (_timeit M build run i j func value setup repeat_)
      as [t | e0] eqn:E.
    + destruct (time_row M build run rest repeat_ i (S j) value)
        as [[row' |] | e1] eqn:E2; cbn [bind option_map] in H;
        try discriminate.
      injection H as <-. cbn [List.length]. rewrite (IH _ _ _ E2).
      reflexivity.
    + destruct e0; discriminate.
Qed.



(** The first function decides when no measurement can be taken. *)
Lemma time_row_never_timed :
  forall functions repeat_ i j value,
    functions <> [] ->
    (forall i j func value setup,
        exists e, _timeit M build run i j func value setup repeat_ = Raise e) ->
    time_row M build run functions repeat_ i j value = Ret None \/
    exists e, time_row M build run functions repeat_ i j value = Raise e.
Proof.
  intros functions repeat_ i j value Hne Hall.
  destruct functions as [| [[func setup] label] rest]; [contradiction |].
  cbn [time_row]. destruct (Hall i j func value setup) as [e ->].
  destruct e; try (left; reflexivity); right; eexists; reflexivity.
Qed.

Lemma row_cells_cons :
  forall x rest,
    exists k,
      row_cells (timing M) (to_ms M) (pair_lt M) (fmt M) (x :: rest)
      = Ret (set_item (map (fmt M) (map (to_ms M) (x :: rest))) k
               (bold (nth k (map (fmt M) (map (to_ms M) (x :: rest)))
                        EmptyString))).
Proof.
  intros x rest.
  exists (min_scan (timing M) (pair_lt M) 0 (to_ms M x) 1
            (map (to_ms M) rest)).
  reflexivity.
Qed.

Lemma fmt_free_of_bar :
  (forall a, free_of "|" (format_3f M a) = true) ->
  forall t, free_of "|" (fmt M t) = true.
Proof.
  intros H [a b]. unfold fmt, free_of in *.
  rewrite !all_chars_app, (H a), (H b). reflexivity.
Qed.

Lemma row_cells_shape :
  forall row cells,
    (forall a, free_of "|" (format_3f M a) = true) ->
    row_cells (timing M) (to_ms M) (pair_lt M) (fmt M) row = Ret cells ->
    List.length cells = List.length row /\
    Forall (fun c => free_of "|" c = true) cells.
Proof.
  intros row cells Hfmt H. destruct row as [| x rest]; [discriminate |].
  destruct (row_cells_cons x rest) as [k Hk]. rewrite Hk in H.
  match type of Hk with
  | _ = Ret ?c => assert (E : c = cells) by congruence
  end.
  clear H Hk. subst cells.
  assert (A : Forall (fun c => free_of "|" c = true)
                (map (fmt M) (map (to_ms M) (x :: rest)))).
  { apply Forall_forall. intros c Hc. apply in_map_iff in Hc.
    destruct Hc as (t & <- & _). apply fmt_free_of_bar. exact Hfmt. }
  split.
  - rewrite set_item_length, !length_map. reflexivity.
  - apply set_item_Forall; [exact A |]. apply bold_free_of_bar.
    apply (nth_Forall (fun c => free_of "|" c = true)); [exact A | reflexivity].
Qed.

(** What the outer loop lets out. *)
Lemma time_values_raise :
  forall functions repeat_ things i table e,
    time_values M build run functions repeat_ i things table = Raise e ->
    (functions = [] /\ e = ValueError) \/
    (functions <> [] /\ e <> ValueError /\ e <> TypeError /\
     exists n value value_label j func setup label,
       nth_error things n = Some (value, value_label) /\
       nth_error functions j = Some (func, setup, label) /\
       _timeit M build run (i + n) j func value setup repeat_ = Raise e).
Proof.
  intros functions repeat_ things.
  induction things as [| [value value_label] rest IH]; intros i table e H.
  - discriminate.
  - cbn [time_values] in H.
    assert (Step :
      forall table',
        time_values M build run functions repeat_ (S i) rest table' = Raise e ->
        (functions = [] /\ e = ValueError) \/
        (functions <> [] /\ e <> ValueError /\ e <> TypeError /\
         exists n value0 value_label0 j func setup label,
           nth_error ((value, value_label) :: rest) n
           = Some (value0, value_label0) /\
           nth_error functions j = Some (func, setup, label) /\
           _timeit M build run (i + n) j func value0 setup repeat_ = Raise e)).
    { intros table' H'. destruct (IH _ _ _ H') as [L | (Hne & H1 & H2 & R)].
      - left. exact L.
      - right. split; [exact Hne |]. split; [exact H1 |]. split; [exact H2 |].
        destruct R as (n & v & vl & j & f & s & l & Hn & Hj & Ht).
        exists (S n), v, vl, j, f, s, l. split; [exact Hn |].
        split; [exact Hj |]. rewrite Nat.add_succ_r. exact Ht. }
    destruct (time_row M build run functions repeat_ i 0 value)
      as [[row |] | e0] eqn:E; cbn [bind] in H.
    + destruct (row_cells (timing M) (to_ms M) (pair_lt M) (fmt M) row)
        as [cells | e1] eqn:C; cbn [bind] in H.
      * apply (Step _ H).
      * injection H as <-. left.
        destruct row as [| x rest'].
        -- apply time_row_length in E. destruct functions; [| discriminate].
           split; [reflexivity |]. cbn in C. injection C as <-.
           reflexivity.
        -- destruct (row_cells_cons x rest') as [k Hk]. rewrite Hk in C.
           discriminate.
    + apply (Step _ H).
    + injection H as <-.
      destruct (time_row_raise _ _ _ _ _ _ E)
        as (H1 & H2 & n & f & s & l & Hn & Ht).
      right. split; [intros ->; destruct n; discriminate |].
      split; [exact H1 |]. split; [exact H2 |].
      exists 0%nat, value, value_label, n, f, s, l.
      split; [reflexivity |]. split; [exact Hn |].
      rewrite Nat.add_0_r. exact Ht.
Qed.

(** Where no measurement can be taken the outer loop adds no row. *)
Lemma time_values_never_timed :
  forall functions repeat_,
    functions <> [] ->
    (forall i j func value setup,
        exists e, _timeit M build run i j func value setup repeat_ = Raise e) ->
    forall things i table table',
      time_values M build run functions repeat_ i things table = Ret table' ->
      table' = table.
Proof.
  intros functions repeat_ Hne Hall things.
  induction things as [| [value value_label] rest IH];
    intros i table table' H.
  - injection H as <-. reflexivity.
  - cbn [time_values] in H.
    destruct (time_row_never_timed functions repeat_ i 0 value Hne Hall)
      as [E | [e E]]; rewrite E in H; cbn [bind] in H.
    + apply (IH _ _ _ H).
    + discriminate.
Qed.

(** X18: what [time_functions] raises, and what fewer than two runs
    give.  With no function added it raises [ValueError], the [min] of
    the empty row of the first value.  With at least one function it
    raises neither [ValueError] nor [TypeError], which the loop catches:
    what it raises, [_timeit] raised for an added function on a value
    to time, whether it comes from the timed statement, from the
    arithmetic or from a division by [len(x)] or [len(x) - 1].  With
    [repeat] 0 or 1 [_timeit] never returns a measurement (at the
    latest, [mean] divides by 0 or [stddev] by 1 - 1), so a table that
    is built holds the header alone; and with [repeat=0] the first
    call, once its statement compiles and [math.fsum] of no float
    returns, raises [ZeroDivisionError] out of [time_functions]. *)
Theorem X18_what_time_functions_raises :
  forall (functions : list timed) (repeat_ : nat),
    time_functions M build run [] repeat_ = Raise ValueError /\
    (forall e,
      time_functions M build run functions repeat_ = Raise e ->
      (functions = [] /\ e = ValueError) \/
      (functions <> [] /\ e <> ValueError /\ e <> TypeError /\
       exists i value value_label j func setup label,
         nth_error THINGS_TO_TIME i = Some (value, value_label) /\
         nth_error functions j = Some (func, setup, label) /\
         _timeit M build run i j func value setup repeat_ = Raise e)) /\
    ((repeat_ <= 1)%nat ->
     (forall i j func value setup,
         exists e, _timeit M build run i j func value setup repeat_ = Raise e) /\
     (functions <> [] ->
      forall table,
        time_table M build run functions repeat_ = Ret table ->
        table = add_header []
                  ("Input type" ::
                   map (fun '(_, _, label) => (label ++ " (ms)")%string)
                     functions))) /\
    (forall func setup label rest z,
      build func (PyStr "not_a_number") setup = Ret tt ->
      fsum M [] = Ret z ->
      time_functions M build run ((func, setup, label) :: rest) 0
      = Raise ZeroDivisionError).
Proof.
  intros functions repeat_.
  split; [reflexivity |]. split; [| split].
  - intros e H. unfold time_functions in H.
    destruct (time_table M build run functions repeat_) as [table | e0] eqn:E;
      cbn [bind] in H; [discriminate |].
    injection H as <-. unfold time_table in E.
    apply time_values_raise in E. exact E.
  - intros Hr.
    assert (Hall : forall i j func value setup,
               exists e,
                 _timeit M build run i j func value setup repeat_ = Raise e).
    { intros i j func value setup. apply timeit_few_runs. exact Hr. }
    split; [exact Hall |].
    intros Hne table H. unfold time_table in H.
    apply (time_values_never_timed functions repeat_ Hne Hall _ _ _ _ H).
  - intros func setup label rest z Hb Hs.
    unfold time_functions, time_table.
    cbn [THINGS_TO_TIME time_values time_row].
    unfold _timeit, timeit_repeat. rewrite Hb. cbn [bind runs].
    unfold mean. rewrite Hs. reflexivity.
Qed.



(** The outer loop only appends rows, each of as many cells as there are
    functions, after the label. *)
Lemma time_values_columns :
  forall functions repeat_,
    (forall a, free_of "|" (format_3f M a) = true) ->
    forall things i table table',
      Forall (fun vl : pyobj * string => free_of "|" (snd vl) = true) things ->
      time_values M build run functions repeat_ i things table = Ret table' ->
      exists rows,
        table' = (table ++ rows)%list /\
        Forall (fun row =>
                  List.length (split_on "|" row) = S (List.length functions))
          rows.
Proof.
  intros functions repeat_ Hfmt things.
  induction things as [| [value value_label] rest IH];
    intros i table table' Hl H.
  - injection H as <-. exists []. rewrite app_nil_r.
    split; [reflexivity | constructor].
  - inversion Hl as [| ? ? Hv Hrest]; subst. cbn [snd] in Hv.
    cbn [time_values] in H.
    destruct (time_row M build run functions repeat_ i 0 value)
      as [[row |] | e0] eqn:E; cbn [bind] in H; [| | discriminate].
    + destruct (row_cells (timing M) (to_ms M) (pair_lt M) (fmt M) row)
        as [cells | e1] eqn:C; cbn [bind] in H; [| discriminate].
      destruct (row_cells_shape _ _ Hfmt C) as [Hlen Hfree].
      destruct (IH _ _ _ Hrest H) as (rows & -> & Hrows).
      exists (join "|" (value_label :: cells) :: rows). split.
      * unfold add_row. rewrite <- app_assoc. reflexivity.
      * constructor; [| exact Hrows].
        rewrite split_on_join; [| discriminate | constructor; assumption].
        cbn [List.length]. rewrite Hlen, (time_row_length _ _ _ _ _ _ E).
        reflexivity.
    + apply (IH _ _ _ Hrest H).
Qed.

(** X20: the table [time_functions] builds is rectangular.  When the
    labels of the added functions and the formatted floats hold no
    bar, every row of the table, the two header rows included, reads
    back as one cell more than there are functions, and the first row
    as ['Input type'] followed by the labels, each with [' (ms)']
    appended, in the order the functions were added. *)
Theorem X20_table_is_rectangular :
  forall (functions : list timed) (repeat_ : nat) (table : Table),
    Forall (fun f : timed => free_of "|" (snd f) = true) functions ->
    (forall a, free_of "|" (format_3f M a) = true) ->
    time_table M build run functions repeat_ = Ret table ->
    Forall (fun row =>
              List.length (split_on "|" row) = S (List.length functions))
      table /\
    split_on "|" (hd EmptyString table)
    = "Input type" ::
      map (fun '(_, _, label) => (label ++ " (ms)")%string) functions.
Proof.
  intros functions repeat_ table Hlab Hfmt H.
  unfold time_table in H. rewrite add_header_cons in H.
  apply time_values_columns in H; [| exact Hfmt | repeat constructor].
  destruct H as (rows & -> & Hrows).
  assert (L : Forall (fun x => free_of "|" x = true)
                ("Input type" ::
                 map (fun '(_, _, label) => (label ++ " (ms)")%string)
                   functions)).
  { constructor; [reflexivity |]. apply Forall_forall. intros c Hc.
    apply in_map_iff in Hc. destruct Hc as ([[f s] l] & <- & Hin).
    rewrite Forall_forall in Hlab. specialize (Hlab _ Hin). cbn [snd] in Hlab.
    unfold free_of in *. rewrite all_chars_app, Hlab. reflexivity. }
  split.
  - constructor; [| constructor; [| exact Hrows]].
    + rewrite split_on_join; [| discriminate | exact L].
      cbn [List.length]. rewrite length_map. reflexivity.
    + rewrite split_on_join;
        [| discriminate
         | constructor; [reflexivity | apply Forall_repeat; reflexivity]].
      cbn [List.length]. rewrite repeat_length, length_map. reflexivity.
  - cbn [app hd]. apply split_on_join; [discriminate | exact L].
Qed.

End TimerRuns.

Lemma X18_what_time_functions_raises_witness :
  time_functions whole_seconds (fun _ _ _ => Ret tt)
    (fun _ _ _ _ _ _ => Ret 1) [("int", "pass", "builtin")] 0
  = Raise ZeroDivisionError /\
  (([("int", "pass", "builtin")] = ([] : list timed) /\
    ZeroDivisionError = ValueError) \/
   ([("int", "pass", "builtin")] <> ([] : list timed) /\
    ZeroDivisionError <> ValueError /\ ZeroDivisionError <> TypeError /\
    exists i value value_label j func setup label,
      nth_error THINGS_TO_TIME i = Some (value, value_label) /\
      nth_error [("int", "pass", "builtin")] j = Some (func, setup, label) /\
      _timeit whole_seconds (fun _ _ _ => Ret tt) (fun _ _ _ _ _ _ => Ret 1)
        i j func value setup 1
      = Raise ZeroDivisionError)) /\
  time_table whole_seconds (fun _ _ _ => Ret tt)
    (fun _ _ _ _ _ _ => Raise ValueError) [("int", "pass", "builtin")] 1
  = Ret (add_header [] ["Input type"; "builtin (ms)"]).
Proof.
  destruct (X18_what_time_functions_raises whole_seconds
              (fun _ _ _ => Ret tt) (fun _ _ _ _ _ _ => Ret 1)
              [("int", "pass", "builtin")] 1%nat) as (_ & H & _ & Z0).
  destruct (X18_what_time_functions_raises whole_seconds
              (fun _ _ _ => Ret tt) (fun _ _ _ _ _ _ => Raise ValueError)
              [("int", "pass", "builtin")] 1%nat) as (_ & _ & Few & _).
  destruct (Few (le_n 1)) as (_ & Header).
  split; [| split].
  - apply (Z0 "int" "pass" "builtin" [] 0); reflexivity.
  - apply H. reflexivity.
  - assert (Hne : [("int", "pass", "builtin")] <> ([] : list timed))
      by discriminate.
    assert (E : exists table,
               time_table whole_seconds (fun _ _ _ => Ret tt)
                 (fun _ _ _ _ _ _ => Raise ValueError)
                 [("int", "pass", "builtin")] 1
               = Ret table)
      by (eexists; vm_compute; reflexivity).
    destruct E as [table E]. rewrite E, (Header Hne table E). reflexivity.
Defined.


Lemma X20_table_is_rectangular_witness :
  exists table,
    time_table whole_seconds (fun _ _ _ => Ret tt)
      (fun (i j : nat) (_ : string) (_ : pyobj) (_ : string) (k : nat) =>
         if Nat.ltb i 5 then Raise ValueError else Ret (Z.of_nat (i + j + k)))
      [("int", "pass", "builtin"); ("int_re", "pass", "regex")] 2%nat
    = Ret table /\
    List.length table = 4%nat /\
    Forall (fun row => List.length (split_on "|" row) = 3%nat) table.
Proof.
  eexists. split; [vm_compute; reflexivity |].
  split; [reflexivity |].
  apply (X20_table_is_rectangular whole_seconds (fun _ _ _ => Ret tt)
           (fun (i j : nat) (_ : string) (_ : pyobj) (_ : string)
                (k : nat) =>
              if Nat.ltb i 5 then Raise ValueError
              else Ret (Z.of_nat (i + j + k)))
           [("int", "pass", "builtin"); ("int_re", "pass", "regex")] 2%nat).
  - repeat constructor.
  - intros a. reflexivity.
  - vm_compute. reflexivity.
Defined.
